(** * ProxyClient: a shallow embedding of the API-client base class

    The JavaScript of [ProxyClient] (constructor, [getChild], [getUrl],
    [request], [subapp], [rejectResponse], [_createCoreRequest] and the two
    log formatters) is rendered as functions in a state-and-exception monad
    over a heap of JavaScript objects.  Node's [url], [http], [https] and
    [util] modules, [superagent], [express], [when] and [sawmill] are the
    host: what the program needs of them is collected in [Host] or written
    out next to the call that uses it. *)

From Stdlib Require Import ZArith String Ascii List.
From stdpp Require Import gmap strings list fin_maps pretty.

Open Scope Z_scope.
Open Scope string_scope.
Open Scope list_scope.

(** ** JavaScript values *)

(** A heap object is named by its index in the heap. *)
Abbreviation loc := nat.

(** Numbers are the integers that occur as time-outs, status codes and
    clock readings; [VNative] is an object owned by the host (a logger, a
    server response), opaque to the program. *)
Inductive value :=
| VUndefined
| VNull
| VBool (b : bool)
| VNumber (n : Z)
| VString (s : string)
| VObject (l : loc)
| VNative (id : N).

(** The prototype an object inherits from.  [ProxyClient.prototype]
    carries the methods of the class and no data property. *)
Inductive prototype :=
| ObjectPrototype
| ErrorPrototype
| ProxyClientPrototype.

Record object := {
  obj_proto : prototype;
  obj_props : gmap string value
}.

(** What [url.parse] returns: each field is a string or [null]. *)
Record Url := {
  u_protocol : value;
  u_host : value;
  u_hostname : value;
  u_port : value;
  u_path : value
}.

(** The host environment. *)
Record Host := {
  (** [url.parse] on a string *)
  url_parse : string -> Url;
  (** [http.STATUS_CODES] *)
  STATUS_CODES : gmap string string;
  (** [sawmill.createMill]: the logger object made for a name *)
  createMill : string -> N;
  (** the string an object converts to (its [toString]) *)
  object_to_string : value -> string
}.

(** What the program does to the outside, in order. *)
Inductive event :=
| LoggerInfo (logger : value) (record : list (string * value))
             (format : string) (args : list value)
| LoggerError (logger : value) (format : string) (args : list value)
| HttpRequest (options : value)
| HttpsRequest (options : value).

(** The state an [express] response holds for the browser. *)
Record ServerResponse := {
  sr_statusCode : value;
  sr_headers : gmap string value;
  sr_body : list string;
  sr_ended : bool
}.

Record world := {
  heap : list object;
  responses : gmap N ServerResponse;
  trace : list event;
  clock : Z
}.

Inductive exn :=
| TypeError (what : string)
| Thrown (v : value).

Inductive completion (A : Type) :=
| Normal (a : A)
| Throw (e : exn).
Arguments Normal {A} a.
Arguments Throw {A} e.

(** ** The monad of effects *)

Definition M (A : Type) : Type := world -> completion A * world.

Definition ret {A} (a : A) : M A := fun w => (Normal a, w).

Definition bind {A B} (m : M A) (f : A -> M B) : M B :=
  fun w => match m w with
           | (Normal a, w') => f a w'
           | (Throw e, w') => (Throw e, w')
           end.

Definition throw {A} (e : exn) : M A := fun w => (Throw e, w).

Declare Scope js_scope.
Delimit Scope js_scope with js.
Notation "'let*' x ':=' c1 'in' c2" := (bind c1 (fun x => c2))
  (at level 10, x pattern, c1 at level 100, c2 at level 200) : js_scope.
Notation "c1 ;; c2" := (bind c1 (fun _ => c2))
  (at level 100, c2 at level 200, right associativity) : js_scope.
Open Scope js_scope.

Definition set_heap (h : list object) (w : world) : world :=
  {| heap := h; responses := responses w; trace := trace w; clock := clock w |}.

Definition set_responses (r : gmap N ServerResponse) (w : world) : world :=
  {| heap := heap w; responses := r; trace := trace w; clock := clock w |}.

Definition emit (e : event) : M unit :=
  fun w => (Normal tt,
            {| heap := heap w; responses := responses w;
               trace := trace w ++ [e]; clock := clock w |}).

(** [Date.now()] *)
Definition Date_now : M Z := fun w => (Normal (clock w), w).

(** A new object: it takes the next free index. *)
Definition alloc (o : object) : M value :=
  fun w => (Normal (VObject (length (heap w))), set_heap (heap w ++ [o]) w).

(** The object literal [{}]. *)
Definition empty_object : object :=
  {| obj_proto := ObjectPrototype; obj_props := ∅ |}.

(** ** Conversions and operators *)

Definition ToBoolean (v : value) : bool :=
  match v with
  | VUndefined | VNull => false
  | VBool b => b
  | VNumber n => negb (Z.eqb n 0)
  | VString s => negb (String.eqb s "")
  | VObject _ | VNative _ => true
  end.

(** [String(v)]: an integer prints in decimal, as JavaScript prints it
    below 10^21. *)
Definition ToString (host : Host) (v : value) : string :=
  match v with
  | VUndefined => "undefined"
  | VNull => "null"
  | VBool true => "true"
  | VBool false => "false"
  | VNumber n => pretty n
  | VString s => s
  | VObject _ | VNative _ => object_to_string host v
  end.

(** [a === b] *)
Definition strict_equals (a b : value) : bool :=
  match a, b with
  | VUndefined, VUndefined | VNull, VNull => true
  | VBool x, VBool y => Bool.eqb x y
  | VNumber x, VNumber y => Z.eqb x y
  | VString x, VString y => String.eqb x y
  | VObject x, VObject y => Nat.eqb x y
  | VNative x, VNative y => N.eqb x y
  | _, _ => false
  end.

(** [a || b]: [b] is evaluated only when [a] is falsy. *)
Definition or_else (a b : M value) : M value :=
  let* x := a in if ToBoolean x then ret x else b.

(** ** Property access *)

Definition proto_get (p : prototype) (k : string) : value :=
  match p with
  | ObjectPrototype => VUndefined
  | ErrorPrototype =>
      if String.eqb k "name" then VString "Error"
      else if String.eqb k "message" then VString ""
      else VUndefined
  | ProxyClientPrototype => VUndefined
  end.

Definition object_get (o : object) (k : string) : value :=
  match obj_props o !! k with
  | Some v => v
  | None => proto_get (obj_proto o) k
  end.

(** [v.k] read in heap [h]: reading a property of [undefined] or [null]
    throws; a primitive has none of the properties read here. *)
Definition Get_in (h : list object) (v : value) (k : string) : completion value :=
  match v with
  | VUndefined => Throw (TypeError ("Cannot read property '" ++ k ++ "' of undefined"))
  | VNull => Throw (TypeError ("Cannot read property '" ++ k ++ "' of null"))
  | VObject l => Normal (match h !! l with
                         | Some o => object_get o k
                         | None => VUndefined
                         end)
  | _ => Normal VUndefined
  end.

Definition Get (v : value) (k : string) : M value :=
  fun w => (Get_in (heap w) v k, w).

Definition object_put (k : string) (x : value) (o : object) : object :=
  {| obj_proto := obj_proto o; obj_props := <[k := x]> (obj_props o) |}.

(** [v.k = x] *)
Definition Put (v : value) (k : string) (x : value) : M unit :=
  fun w =>
    match v with
    | VUndefined => (Throw (TypeError ("Cannot set property '" ++ k ++ "' of undefined")), w)
    | VNull => (Throw (TypeError ("Cannot set property '" ++ k ++ "' of null")), w)
    | VObject l => (Normal tt, set_heap (alter (object_put k x) l (heap w)) w)
    | _ => (Normal tt, w)
    end.

(** [new Error(message)]: the message is converted to a string, and is
    left to the prototype when [undefined]. *)
Definition error_object (host : Host) (message : value) : object :=
  {| obj_proto := ErrorPrototype;
     obj_props := match message with
                  | VUndefined => ∅
                  | _ => {[ "message" := VString (ToString host message) ]}
                  end |}.

Definition new_Error (host : Host) (message : value) : M value :=
  alloc (error_object host message).

(** ** Host objects the program builds on *)

(** A [superagent] request under construction: [set] fills [sa_header],
    [timeout] and [use] are recorded, [on] adds a listener. *)
Record SuperagentRequest := {
  sa_method : value;
  sa_url : value;
  sa_header : gmap string value;
  sa_timeout : value;
  sa_plugins : list string;
  sa_listeners : list (string * (value -> M unit))
}.

Definition superagent (method url : value) : SuperagentRequest :=
  {| sa_method := method; sa_url := url; sa_header := ∅;
     sa_timeout := VUndefined; sa_plugins := []; sa_listeners := [] |}.

Definition sa_set (field : string) (val : value) (r : SuperagentRequest)
  : SuperagentRequest :=
  {| sa_method := sa_method r; sa_url := sa_url r;
     sa_header := <[field := val]> (sa_header r);
     sa_timeout := sa_timeout r; sa_plugins := sa_plugins r;
     sa_listeners := sa_listeners r |}.

Definition sa_set_timeout (ms : value) (r : SuperagentRequest) : SuperagentRequest :=
  {| sa_method := sa_method r; sa_url := sa_url r; sa_header := sa_header r;
     sa_timeout := ms; sa_plugins := sa_plugins r;
     sa_listeners := sa_listeners r |}.

Definition sa_use (plugin : string) (r : SuperagentRequest) : SuperagentRequest :=
  {| sa_method := sa_method r; sa_url := sa_url r; sa_header := sa_header r;
     sa_timeout := sa_timeout r; sa_plugins := sa_plugins r ++ [plugin];
     sa_listeners := sa_listeners r |}.

Definition sa_on (name : string) (f : value -> M unit) (r : SuperagentRequest)
  : SuperagentRequest :=
  {| sa_method := sa_method r; sa_url := sa_url r; sa_header := sa_header r;
     sa_timeout := sa_timeout r; sa_plugins := sa_plugins r;
     sa_listeners := sa_listeners r ++ [(name, f)] |}.

(** A Node message being read: the object with its properties and the
    chunks its stream delivers, in order of arrival. *)
Record IncomingMessage := {
  im_this : value;
  im_data : list string
}.

Inductive transport := PlainHttp | Tls.

(** What [http.request] and [https.request] return: [on] adds a listener,
    a stream piped into it supplies [cr_body]. *)
Record ClientRequest := {
  cr_transport : transport;
  cr_options : value;
  cr_listeners : list (string * (IncomingMessage -> M unit));
  cr_body : list string
}.

Definition http_request (options : value) : M ClientRequest :=
  emit (HttpRequest options) ;;
  ret {| cr_transport := PlainHttp; cr_options := options;
         cr_listeners := []; cr_body := [] |}.

Definition https_request (options : value) : M ClientRequest :=
  emit (HttpsRequest options) ;;
  ret {| cr_transport := Tls; cr_options := options;
         cr_listeners := []; cr_body := [] |}.

Definition cr_on (name : string) (f : IncomingMessage -> M unit) (r : ClientRequest)
  : ClientRequest :=
  {| cr_transport := cr_transport r; cr_options := cr_options r;
     cr_listeners := cr_listeners r ++ [(name, f)]; cr_body := cr_body r |}.

(** [source.pipe(r)] *)
Definition pipe_to_request (source : IncomingMessage) (r : ClientRequest)
  : ClientRequest :=
  {| cr_transport := cr_transport r; cr_options := cr_options r;
     cr_listeners := cr_listeners r; cr_body := cr_body r ++ im_data source |}.

Definition update_response (f : ServerResponse -> ServerResponse) (res : N) : M unit :=
  fun w => (Normal tt, set_responses (alter f res (responses w)) w).

(** [res.status(code)] *)
Definition res_status (res : N) (code : value) : M unit :=
  update_response (fun r =>
    {| sr_statusCode := code; sr_headers := sr_headers r;
       sr_body := sr_body r; sr_ended := sr_ended r |}) res.

(** [res.set(fields)]: every property of the object becomes a header of
    the response, over a header of the same name already set. *)
Definition res_set (res : N) (fields : value) : M unit :=
  fun w =>
    match fields with
    | VObject l =>
        match heap w !! l with
        | Some o =>
            update_response (fun r =>
              {| sr_statusCode := sr_statusCode r;
                 sr_headers := obj_props o ∪ sr_headers r;
                 sr_body := sr_body r; sr_ended := sr_ended r |}) res w
        | None => (Normal tt, w)
        end
    | _ => (Normal tt, w)
    end.

(** [source.pipe(res)]: each chunk is written as it arrives, then the
    response is ended. *)
Definition pipe_to_response (source : IncomingMessage) (res : N) : M unit :=
  update_response (fun r =>
    {| sr_statusCode := sr_statusCode r; sr_headers := sr_headers r;
       sr_body := sr_body r ++ im_data source; sr_ended := true |}) res.

(** [util._extend(origin, add)] for an object literal [add]: its keys are
    assigned to [origin] from the last to the first. *)
Fixpoint assign_all (origin : value) (l : list (string * value)) : M unit :=
  match l with
  | [] => ret tt
  | (k, v) :: l' => Put origin k v ;; assign_all origin l'
  end.

Definition util_extend (origin : value) (add : list (string * value)) : M value :=
  assign_all origin (rev add) ;; ret origin.

(** The promises of [when]. *)
Inductive promise :=
| Fulfilled (v : value)
| Rejected (reason : value).

Definition when_reject (reason : value) : promise := Rejected reason.

(** [/\s/] on the characters of a status phrase. *)
Definition is_whitespace (c : ascii) : bool :=
  let n := nat_of_ascii c in
  ((9 <=? n) && (n <=? 13))%nat || (n =? 32)%nat.

Fixpoint remove_whitespace (s : string) : string :=
  match s with
  | EmptyString => EmptyString
  | String c s' =>
      if is_whitespace c then remove_whitespace s'
      else String c (remove_whitespace s')
  end.

(** [logger.info(record, format, ...args)] and [logger.error(format,
    ...args)]: looking the method up on [undefined] or [null] throws. *)
Definition logger_method (logger : value) (name : string) : M unit :=
  let* _ := Get logger name in ret tt.

(** [n.toFixed(3)] for an integer [n] *)
Definition toFixed3 (n : Z) : value := VString (pretty n ++ ".000").

(** ** The program *)

Section ProxyClient.
Variable host : Host.

(** [this.constructor.name]: the name of the constructor the prototype
    of [this] belongs to. *)
Definition constructor_name (this : value) : M value :=
  fun w =>
    (Normal match this with
            | VObject l =>
                match obj_proto <$> heap w !! l with
                | Some ProxyClientPrototype => VString "ProxyClient"
                | Some ErrorPrototype => VString "Error"
                | Some ObjectPrototype => VString "Object"
                | None => VUndefined
                end
            | _ => VUndefined
            end, w).

(** The body of [function ProxyClient(options)] past the [instanceof]
    guard, [this] being the instance under construction. *)
Definition ProxyClient_body (this options : value) : M unit :=
  let* options := or_else (ret options) (alloc empty_object) in

  let* rootUrl := or_else (Get this "rootUrl")
                 (or_else (Get options "rootUrl")
                          (ret (VString "http://localhost"))) in
  Put this "rootUrl" rootUrl ;;
  let* logger := or_else (Get this "logger")
                (or_else (Get options "logger")
                         (let* name := constructor_name this in
                          ret (VNative (createMill host (ToString host name))))) in
  Put this "logger" logger ;;
  let* timeout := or_else (Get this "timeout")
                 (or_else (Get options "timeout")
                          (ret (VNumber 5000))) in
  Put this "timeout" timeout ;;

  Put this "_authorization" VNull.

(** [new ProxyClient(options)] *)
Definition new_ProxyClient (options : value) : M value :=
  let* this := alloc {| obj_proto := ProxyClientPrototype; obj_props := ∅ |} in
  ProxyClient_body this options ;;
  ret this.

(** [ProxyClient(options)] called as a plain function: [this] is not an
    instance, so the guard returns [new ProxyClient(options)]. *)
Definition ProxyClient (options : value) : M value :=
  new_ProxyClient options.

(** [ProxyClient.createClient]: [cls] is [ProxyClient]. *)
Definition createClient (options : value) : M value :=
  ProxyClient options.

(** [this.constructor.createClient]: only an instance of [ProxyClient]
    finds it. *)
Definition constructor_createClient (this : value) : M (value -> M value) :=
  let* name := constructor_name this in
  if strict_equals name (VString "ProxyClient") then ret createClient
  else throw (TypeError "this.constructor.createClient is not a function").

Definition getChild (this options : value) : M value :=
  let* create := constructor_createClient this in
  let* child := create this in
  let* auth := Get options "auth" in
  Put child "_authorization" auth ;;
  ret child.

(** [url.parse(path)]: anything but a string is refused. *)
Definition url_parse_value (path : value) : M Url :=
  match path with
  | VString s => ret (url_parse host s)
  | _ => throw (TypeError "Parameter 'url' must be a string")
  end.

(** [a + b] where one operand is a string: concatenation. *)
Definition concat (a b : value) : value :=
  VString (ToString host a ++ ToString host b).

Definition getUrl (this path : value) : M value :=
  let* parsed := url_parse_value path in
  if ToBoolean (u_hostname parsed) then ret path
  else
    let* rootUrl := Get this "rootUrl" in
    ret (concat rootUrl path).

Definition _formatRequest (request : value) : M (list (string * value)) :=
  let* headers := or_else (Get request "headers")
                 (or_else (Get request "header") (alloc empty_object)) in
  let* req := Get request "req" in
  let* headers := (if ToBoolean req
                   then let* req := Get request "req" in Get req "_headers"
                   else ret headers) in
  let* method := Get request "method" in
  let* url := Get request "url" in
  ret [("method", method); ("url", url); ("headers", headers)].

Definition _formatResponse (response : value) : M (list (string * value)) :=
  let* status := Get response "status" in
  let* headers := Get response "headers" in
  ret [("status", status); ("headers", headers)].

Definition request (this method path : value) : M SuperagentRequest :=
  let self := this in
  let* start := Date_now in
  let* href := getUrl this path in

  let r := superagent method href in
  let* authorization := Get this "_authorization" in
  let r := sa_set "Authorization" authorization r in
  let* timeout := Get self "timeout" in
  let r := sa_set_timeout timeout r in
  let r := sa_use "superagent-then" r in
  let r := sa_on "request" (fun req =>
    let* logger := Get self "logger" in
    logger_method logger "info" ;;
    let* record := _formatRequest req in
    let* req_method := Get req "method" in
    let* req_url := Get req "url" in
    emit (LoggerInfo logger record "< %s %s" [req_method; req_url])) r in
  let r := sa_on "error" (fun err =>
    let* logger := Get self "logger" in
    logger_method logger "error" ;;
    emit (LoggerError logger "Error in %s %s: %s" [method; href; err])) r in
  let r := sa_on "response" (fun res =>
    let* now := Date_now in
    let ms := now - start in
    let* logger := Get self "logger" in
    logger_method logger "info" ;;
    let* record := _formatResponse res in
    let* status := Get res "status" in
    emit (LoggerInfo logger record "> %s %s %s %s ms"
            [method; href; status; toFixed3 ms])) r in
  ret r.

Definition get (this path : value) : M SuperagentRequest :=
  request this (VString "GET") path.

Definition post (this path : value) : M SuperagentRequest :=
  request this (VString "POST") path.

Definition put (this path : value) : M SuperagentRequest :=
  request this (VString "PUT") path.

Definition del (this path : value) : M SuperagentRequest :=
  request this (VString "DELETE") path.

Definition _createCoreRequest (this options : value) : M ClientRequest :=
  let* protocol := Get options "protocol" in
  if strict_equals protocol (VString "http:") then http_request options
  else
    let* protocol := Get options "protocol" in
    if strict_equals protocol (VString "https:") then https_request options
    else
      let* protocol := Get options "protocol" in
      let* err := new_Error host
                    (concat (concat (VString "Invalid protocol, ") protocol)
                            (VString ". Check rootUrl.")) in
      throw (Thrown err).

(** The listener that [subapp] puts on the outgoing request. *)
Definition subapp_on_response (self : value) (req : IncomingMessage) (res : N)
    (start : Z) (href : value) (incoming : IncomingMessage) : M unit :=
  let* now := Date_now in
  let ms := now - start in

  let* logger := Get self "logger" in
  logger_method logger "info" ;;
  let* record := _formatResponse (im_this incoming) in
  let* method := Get (im_this req) "method" in
  let* statusCode := Get (im_this incoming) "statusCode" in
  emit (LoggerInfo logger record "> %s %s %s %s ms"
          [method; href; statusCode; toFixed3 ms]) ;;

  let* statusCode := Get (im_this incoming) "statusCode" in
  res_status res statusCode ;;
  let* headers := Get (im_this incoming) "headers" in
  res_set res headers ;;
  pipe_to_response incoming res.

(** The middleware that [subapp] mounts: [function (req, res, next)]. *)
Definition subapp_middleware (self : value) (req : IncomingMessage) (res : N)
  : M ClientRequest :=
  let* start := Date_now in
  let* url := Get (im_this req) "url" in
  let* href := getUrl self url in
  let* parsedUrl := url_parse_value href in
  let* method := Get (im_this req) "method" in
  let* req_headers := Get (im_this req) "headers" in
  let* headers := util_extend req_headers
                    [("Connection", VString "Keep-Alive");
                     ("Host", u_host parsedUrl);
                     ("Origin", u_host parsedUrl)] in
  let* options := alloc {| obj_proto := ObjectPrototype;
                           obj_props := list_to_map
                             [("protocol", u_protocol parsedUrl);
                              ("method", method);
                              ("hostname", u_hostname parsedUrl);
                              ("port", u_port parsedUrl);
                              ("path", u_path parsedUrl);
                              ("headers", headers)] |} in
  let* outgoing := _createCoreRequest self options in

  let* logger := Get self "logger" in
  logger_method logger "info" ;;
  let* record := _formatRequest (im_this req) in
  let* method := Get (im_this req) "method" in
  emit (LoggerInfo logger record "< %s %s" [method; href]) ;;

  let outgoing := cr_on "response" (subapp_on_response self req res start href)
                        outgoing in

  ret (pipe_to_request req outgoing).

(** [subapp()]: the sub-application, which is its one middleware. *)
Definition subapp (this : value) : IncomingMessage -> N -> M ClientRequest :=
  subapp_middleware this.

(** [http.STATUS_CODES[status]] *)
Definition status_phrase (status : value) : value :=
  match STATUS_CODES host !! ToString host status with
  | Some phrase => VString phrase
  | None => VUndefined
  end.

(** [phrase.replace(/\s/g, '')] *)
Definition replace_whitespace (phrase : value) : M value :=
  match phrase with
  | VString s => ret (VString (remove_whitespace s))
  | VUndefined => throw (TypeError "Cannot read property 'replace' of undefined")
  | VNull => throw (TypeError "Cannot read property 'replace' of null")
  | _ => throw (TypeError "phrase.replace is not a function")
  end.

Definition rejectResponse (this response : value) : M promise :=
  let* body := or_else (Get response "body") (alloc empty_object) in
  let* message := or_else (Get body "message") (Get response "text") in
  let* err := new_Error host message in

  let* code := or_else (Get body "code") (Get response "status") in
  Put err "code" code ;;
  let* name := or_else (Get body "name")
                 (let* status := Get response "status" in
                  let* stripped := replace_whitespace (status_phrase status) in
                  ret (concat stripped (VString "Error"))) in
  Put err "name" name ;;
  Put err "response" response ;;

  ret (when_reject err).

End ProxyClient.

(** ** A host to run the program on *)

(** [url.parse] on the addresses used in the examples; any other string
    is taken as a relative path. *)
Definition relative_url (s : string) : Url :=
  {| u_protocol := VNull; u_host := VNull; u_hostname := VNull;
     u_port := VNull; u_path := VString s |}.

Definition absolute_url (proto authority name : string) (prt : value)
    (rest : string) : Url :=
  {| u_protocol := VString proto; u_host := VString authority;
     u_hostname := VString name; u_port := prt; u_path := VString rest |}.

Definition sample_url_parse (s : string) : Url :=
  if String.eqb s "https://other.example/x" then
    absolute_url "https:" "other.example" "other.example" VNull "/x"
  else if String.eqb s "https://api.example/v1/search?q=x" then
    absolute_url "https:" "api.example" "api.example" VNull "/v1/search?q=x"
  else if String.eqb s "ftp://files.example/pub" then
    absolute_url "ftp:" "files.example" "files.example" VNull "/pub"
  else relative_url s.

(** [http.STATUS_CODES] as Node lists it. *)
Definition node_STATUS_CODES : gmap string string :=
  list_to_map
    [("100", "Continue"); ("101", "Switching Protocols"); ("102", "Processing");
     ("103", "Early Hints");
     ("200", "OK"); ("201", "Created"); ("202", "Accepted");
     ("203", "Non-Authoritative Information"); ("204", "No Content");
     ("205", "Reset Content"); ("206", "Partial Content");
     ("207", "Multi-Status"); ("208", "Already Reported"); ("226", "IM Used");
     ("300", "Multiple Choices"); ("301", "Moved Permanently"); ("302", "Found");
     ("303", "See Other"); ("304", "Not Modified"); ("305", "Use Proxy");
     ("307", "Temporary Redirect"); ("308", "Permanent Redirect");
     ("400", "Bad Request"); ("401", "Unauthorized"); ("402", "Payment Required");
     ("403", "Forbidden"); ("404", "Not Found"); ("405", "Method Not Allowed");
     ("406", "Not Acceptable"); ("407", "Proxy Authentication Required");
     ("408", "Request Timeout"); ("409", "Conflict"); ("410", "Gone");
     ("411", "Length Required"); ("412", "Precondition Failed");
     ("413", "Payload Too Large"); ("414", "URI Too Long");
     ("415", "Unsupported Media Type"); ("416", "Range Not Satisfiable");
     ("417", "Expectation Failed"); ("418", "I'm a Teapot");
     ("421", "Misdirected Request"); ("422", "Unprocessable Entity");
     ("423", "Locked"); ("424", "Failed Dependency"); ("425", "Too Early");
     ("426", "Upgrade Required"); ("428", "Precondition Required");
     ("429", "Too Many Requests"); ("431", "Request Header Fields Too Large");
     ("451", "Unavailable For Legal Reasons");
     ("500", "Internal Server Error"); ("501", "Not Implemented");
     ("502", "Bad Gateway"); ("503", "Service Unavailable");
     ("504", "Gateway Timeout"); ("505", "HTTP Version Not Supported");
     ("506", "Variant Also Negotiates"); ("507", "Insufficient Storage");
     ("508", "Loop Detected"); ("509", "Bandwidth Limit Exceeded");
     ("510", "Not Extended"); ("511", "Network Authentication Required")].

Definition node : Host :=
  {| url_parse := sample_url_parse;
     STATUS_CODES := node_STATUS_CODES;
     createMill := fun _ => 1%N;
     object_to_string := fun _ => "[object Object]" |}.

(** The world before anything has run. *)
Definition empty_world : world :=
  {| heap := []; responses := ∅; trace := []; clock := 0 |}.

Definition plain_object (props : list (string * value)) : object :=
  {| obj_proto := ObjectPrototype; obj_props := list_to_map props |}.

(** ** Vocabulary of the statements *)

(** A value that refers to the heap refers to an object that is there. *)
Definition allocated (h : list object) (v : value) : Prop :=
  match v with VObject l => (l < length h)%nat | _ => True end.

(** The value of [a || d] from the values of its operands. *)
Definition or_default (v d : value) : value := if ToBoolean v then v else d.

(** The property [k] of [options || {}]: [undefined] when [options]
    itself is missing. *)
Definition option_value (h : list object) (options : value) (k : string) : value :=
  if ToBoolean options
  then match Get_in h options k with Normal v => v | Throw _ => VUndefined end
  else VUndefined.

(** The own properties of a constructed client. *)
Definition client_object (rootUrl logger timeout authorization : value) : object :=
  {| obj_proto := ProxyClientPrototype;
     obj_props := <["_authorization" := authorization]>
                  (<["timeout" := timeout]>
                  (<["logger" := logger]>
                  (<["rootUrl" := rootUrl]> ∅))) |}.

(** The two responses of the documentation: status 404 with body [{}] and
    text ["Not Found"]; and a body that names everything, with status 500. *)
Definition not_found_world : world :=
  set_heap [plain_object [];
            plain_object [("status", VNumber 404); ("body", VObject 0);
                          ("text", VString "Not Found")]] empty_world.

Definition custom_error_world : world :=
  set_heap [plain_object [("message", VString "bad thing"); ("code", VString "E1");
                          ("name", VString "CustomError")];
            plain_object [("status", VNumber 500); ("body", VObject 0);
                          ("text", VString "{...}")]] empty_world.

(** A response with a status code that has no phrase: 520, body [{}]. *)
Definition unknown_status_world : world :=
  set_heap [plain_object [];
            plain_object [("status", VNumber 520); ("body", VObject 0);
                          ("text", VString "origin error")]] empty_world.

(** The heap once [util._extend] has forced the three headers on the
    headers object at [lh]. *)
Definition force_headers (parsed : Url) (lh : loc) (h : list object) : list object :=
  alter (object_put "Connection" (VString "Keep-Alive")) lh
    (alter (object_put "Host" (u_host parsed)) lh
       (alter (object_put "Origin" (u_host parsed)) lh h)).

(** The options object that [subapp] hands to [_createCoreRequest]. *)
Definition proxy_options (parsed : Url) (method : value) (lh : loc) : object :=
  {| obj_proto := ObjectPrototype;
     obj_props := list_to_map
                    [("protocol", u_protocol parsed);
                     ("method", method);
                     ("hostname", u_hostname parsed);
                     ("port", u_port parsed);
                     ("path", u_path parsed);
                     ("headers", VObject lh)] |}.

(** The outgoing request as [subapp] leaves it: the response listener is
    on, the inbound body is piped in. *)
Definition proxied_request (t : transport) (self : value)
    (req : IncomingMessage) (res : N) (start : Z) (href : value)
    (options : value) : ClientRequest :=
  {| cr_transport := t; cr_options := options;
     cr_listeners := [("response", subapp_on_response self req res start href)];
     cr_body := im_data req |}.

(** A client for ["https://api.example/v1"] at 1, the headers of a
    browser request at 2 and the request, [GET /search?q=x], at 3. *)
Definition proxy_world : world :=
  set_heap [plain_object [("rootUrl", VString "https://api.example/v1")];
            client_object (VString "https://api.example/v1") (VNative 1)
              (VNumber 5000) VNull;
            plain_object [("host", VString "browser.example");
                          ("accept", VString "*/*")];
            plain_object [("method", VString "GET"); ("url", VString "/search?q=x");
                          ("headers", VObject 2)]] empty_world.

(** The same request arriving at a client whose [rootUrl] is
    ["ftp://files.example"]: the address resolves to
    ["ftp://files.example/pub"]. *)
Definition ftp_world : world :=
  set_heap [plain_object [("rootUrl", VString "ftp://files.example")];
            client_object (VString "ftp://files.example") (VNative 1)
              (VNumber 5000) VNull;
            plain_object [("host", VString "browser.example")];
            plain_object [("method", VString "GET"); ("url", VString "/pub");
                          ("headers", VObject 2)]] empty_world.

(** A response to the browser on which nothing has been set. *)
Definition fresh_response : ServerResponse :=
  {| sr_statusCode := VNumber 200; sr_headers := ∅; sr_body := [];
     sr_ended := false |}.

(** [proxy_world] when the upstream has answered: its headers at 4, the
    upstream response (status 404) at 5, and the response to the browser
    registered as 7. *)
Definition relay_world : world :=
  {| heap := heap proxy_world ++
             [plain_object [("content-type", VString "text/plain");
                            ("x-request-id", VString "r-17")];
              plain_object [("statusCode", VNumber 404); ("headers", VObject 4)]];
     responses := {[ 7%N := fresh_response ]};
     trace := [];
     clock := 12 |}.

(** A client as the constructor leaves it: an instance of [ProxyClient]
    whose [rootUrl], [logger] and [timeout] are set (truthy). *)
Definition is_client (h : list object) (this : value) : Prop :=
  exists l o,
    this = VObject l /\ h !! l = Some o /\
    obj_proto o = ProxyClientPrototype /\
    ToBoolean (object_get o "rootUrl") = true /\
    ToBoolean (object_get o "logger") = true /\
    ToBoolean (object_get o "timeout") = true.

(** The message [new Error(v)] ends up with. *)
Definition error_message (host : Host) (v : value) : value :=
  match v with
  | VUndefined => VString ""
  | _ => VString (ToString host v)
  end.

(** The names of the own properties of a constructed client. *)
Definition client_keys : gset string :=
  {[ "rootUrl"; "logger"; "timeout"; "_authorization" ]}.

(** Options as the type declarations list them, all set, with an
    authorization thrown in. *)
Definition full_options_world : world :=
  set_heap [plain_object [("rootUrl", VString "https://api.example/v1");
                          ("logger", VNative 9); ("timeout", VNumber 250);
                          ("agent", VNative 4); ("headers", VNative 5);
                          ("auth", VString "tok");
                          ("_authorization", VString "tok")]] empty_world.

(** Request objects as the log formatter meets them: at 3, one of
    [superagent] on Node ([header], and the Node request under [req] with
    its [_headers]); at 5, one whose [req] has no [_headers]; at 6, one
    with neither [headers] nor [header]; the client is at 7 and a
    response of status 404 at 8. *)
Definition formatter_world : world :=
  set_heap [plain_object [("accept", VString "application/json")];
            plain_object [("Accept", VString "application/json");
                          ("Host", VString "api.example")];
            plain_object [("_headers", VObject 1)];
            plain_object [("method", VString "GET");
                          ("url", VString "https://api.example/v1/search");
                          ("header", VObject 0); ("req", VObject 2)];
            plain_object [];
            plain_object [("method", VString "GET"); ("url", VString "/x");
                          ("headers", VObject 0); ("req", VObject 4)];
            plain_object [("method", VString "POST"); ("url", VString "/y")];
            client_object (VString "https://api.example/v1") (VNative 1)
              (VNumber 5000) VNull;
            plain_object [("status", VNumber 404)]] empty_world.

(** A response of status 500 with a body that is [null]. *)
Definition server_error_world : world :=
  set_heap [plain_object [("status", VNumber 500); ("body", VNull);
                          ("text", VString "boom")]] empty_world.

(** A client [c] of world [w] is still a client in [w'], with the same
    configuration and authorization. *)
Definition keeps_client (w w' : world) (c : value) : Prop :=
  is_client (heap w') c /\
  Get_in (heap w') c "rootUrl" = Get_in (heap w) c "rootUrl" /\
  Get_in (heap w') c "logger" = Get_in (heap w) c "logger" /\
  Get_in (heap w') c "timeout" = Get_in (heap w) c "timeout" /\
  Get_in (heap w') c "_authorization" = Get_in (heap w) c "_authorization".

(** * Properties *)

(** ** The heap *)

Lemma alter_at_end {A} (f : A -> A) (h : list A) (o : A) (t : list A) :
  alter f (length h) (h ++ o :: t) = h ++ f o :: t.
Proof.
  replace (length h) with (length h + 0)%nat by lia.
  now rewrite alter_app_r.
Qed.

Lemma Get_in_new h o t k :
  Get_in (h ++ o :: t) (VObject (length h)) k = Normal (object_get o k).
Proof. unfold Get_in. now rewrite list_lookup_middle. Qed.

Lemma Get_in_old h t v k :
  allocated h v -> Get_in (h ++ t) v k = Get_in h v k.
Proof.
  destruct v; simpl; try reflexivity.
  intros Hl. now rewrite lookup_app_l.
Qed.

Lemma Get_in_truthy h v k :
  ToBoolean v = true ->
  exists x, Get_in h v k = Normal x.
Proof. destruct v; simpl; try discriminate; eauto. Qed.

(** ** Running the monad, one step at a time *)

Lemma bind_ret {A B} (a : A) (f : A -> M B) w : bind (ret a) f w = f a w.
Proof. reflexivity. Qed.

Lemma bind_bind {A B C} (m : M A) (g : A -> M B) (f : B -> M C) w :
  bind (bind m g) f w = bind m (fun x => bind (g x) f) w.
Proof. unfold bind. destruct (m w) as [[a|e] w']; reflexivity. Qed.

Lemma bind_throw {A B} (e : exn) (f : A -> M B) w :
  bind (throw e) f w = (Throw e, w).
Proof. reflexivity. Qed.

Lemma bind_alloc {B} (o : object) (f : value -> M B) w :
  bind (alloc o) f w
  = f (VObject (length (heap w))) (set_heap (heap w ++ [o]) w).
Proof. reflexivity. Qed.

Lemma bind_Get {B} (v : value) (k : string) (f : value -> M B) w :
  bind (Get v k) f w
  = match Get_in (heap w) v k with
    | Normal x => f x w
    | Throw e => (Throw e, w)
    end.
Proof. reflexivity. Qed.

Lemma bind_Put {B} (l : loc) (k : string) (x : value) (f : unit -> M B) w :
  bind (Put (VObject l) k x) f w
  = f tt (set_heap (alter (object_put k x) l (heap w)) w).
Proof. reflexivity. Qed.

Lemma bind_emit {B} (e : event) (f : unit -> M B) w :
  bind (emit e) f w
  = f tt {| heap := heap w; responses := responses w;
            trace := trace w ++ [e]; clock := clock w |}.
Proof. reflexivity. Qed.

Lemma bind_Date_now {B} (f : Z -> M B) w :
  bind Date_now f w = f (clock w) w.
Proof. reflexivity. Qed.

Lemma bind_or_else {B} (a b : M value) (f : value -> M B) w :
  bind (or_else a b) f w
  = bind a (fun x => if ToBoolean x then f x else bind b f) w.
Proof.
  unfold or_else. rewrite bind_bind. unfold bind.
  destruct (a w) as [[x|e] w']; [|reflexivity].
  destruct (ToBoolean x); reflexivity.
Qed.

Lemma bind_constructor_name {B} (this : value) (f : value -> M B) w :
  bind (constructor_name this) f w
  = f match this with
      | VObject l =>
          match obj_proto <$> heap w !! l with
          | Some ProxyClientPrototype => VString "ProxyClient"
          | Some ErrorPrototype => VString "Error"
          | Some ObjectPrototype => VString "Object"
          | None => VUndefined
          end
      | _ => VUndefined
      end w.
Proof. reflexivity. Qed.

Lemma run_ret {A} (m : M A) w : bind m ret w = m w.
Proof. unfold bind, ret. destruct (m w) as [[a|e] w']; reflexivity. Qed.

Ltac js_step :=
  first [ rewrite bind_bind | rewrite bind_ret | rewrite bind_throw
        | rewrite bind_alloc | rewrite bind_Get | rewrite bind_Put
        | rewrite bind_emit | rewrite bind_Date_now | rewrite bind_or_else
        | rewrite bind_constructor_name ];
  cbn [heap responses trace clock set_heap set_responses].

(** ** The constructor *)

Lemma object_get_put_eq k x o : object_get (object_put k x o) k = x.
Proof. unfold object_get, object_put. simpl. now rewrite lookup_insert_eq. Qed.

Lemma object_get_put_ne k k' x o :
  k <> k' -> object_get (object_put k x o) k' = object_get o k'.
Proof.
  intros Hne. unfold object_get, object_put. simpl.
  now rewrite lookup_insert_ne.
Qed.

Lemma object_get_fresh p k :
  p <> ErrorPrototype ->
  object_get {| obj_proto := p; obj_props := ∅ |} k = VUndefined.
Proof.
  intros Hp. unfold object_get. simpl. rewrite lookup_empty.
  destruct p; try reflexivity. congruence.
Qed.

Ltac js_run :=
  repeat first
    [ js_step
    | rewrite Get_in_new
    | rewrite alter_at_end
    | rewrite object_get_put_eq
    | rewrite object_get_put_ne by discriminate
    | rewrite object_get_fresh by discriminate
    | progress (cbn [ToBoolean]) ].

(** The body of the constructor on a fresh instance at the end of [h],
    for an [options] value whose properties [opt] do not depend on the
    instance. *)
Lemma ProxyClient_body_run host h t rs tr ck options (opt : string -> value) :
  (forall o k, Get_in (h ++ o :: t) options k = Normal (opt k)) ->
  ToBoolean options = true ->
  ProxyClient_body host (VObject (length h)) options
    {| heap := h ++ {| obj_proto := ProxyClientPrototype; obj_props := ∅ |} :: t;
       responses := rs; trace := tr; clock := ck |}
  = (Normal tt,
     {| heap := h ++ client_object
                  (or_default (opt "rootUrl") (VString "http://localhost"))
                  (or_default (opt "logger") (VNative (createMill host "ProxyClient")))
                  (or_default (opt "timeout") (VNumber 5000))
                  VNull :: t;
        responses := rs; trace := tr; clock := ck |}).
Proof.
  intros Hopt Hb. unfold ProxyClient_body, or_default.
  rewrite <- run_ret.
  js_run. rewrite Hb. js_run. rewrite Hopt.
  destruct (ToBoolean (opt "rootUrl")); js_run; rewrite Hopt;
    (destruct (ToBoolean (opt "logger")); js_run; rewrite ?Hopt;
     [| rewrite list_lookup_middle by reflexivity;
        cbn [fmap option_fmap option_map obj_proto object_put ToString];
        js_run; rewrite ?Hopt ]);
    destruct (ToBoolean (opt "timeout")); js_run; reflexivity.
Qed.

(** A missing [options] argument is replaced by [{}]. *)
Lemma ProxyClient_body_falsy host this options w :
  ToBoolean options = false ->
  ProxyClient_body host this options w
  = ProxyClient_body host this (VObject (length (heap w)))
      (set_heap (heap w ++ [empty_object]) w).
Proof.
  intros Hb. unfold ProxyClient_body.
  rewrite !bind_or_else, !bind_ret, Hb, bind_alloc. reflexivity.
Qed.

Lemma new_ProxyClient_run host options w :
  allocated (heap w) options ->
  let opt := option_value (heap w) options in
  new_ProxyClient host options w =
  (Normal (VObject (length (heap w))),
   set_heap (heap w ++
             client_object
               (or_default (opt "rootUrl") (VString "http://localhost"))
               (or_default (opt "logger") (VNative (createMill host "ProxyClient")))
               (or_default (opt "timeout") (VNumber 5000))
               VNull
             :: (if ToBoolean options then [] else [empty_object])) w).
Proof.
  intros Hal opt. subst opt. destruct w as [h rs tr ck]. simpl in *.
  unfold new_ProxyClient, option_value. js_step. unfold bind, set_heap.
  cbn [heap responses trace clock].
  destruct (ToBoolean options) eqn:Hb.
  - rewrite (ProxyClient_body_run host h [] rs tr ck options
               (fun k => match Get_in h options k with
                         | Normal v => v
                         | Throw _ => VUndefined
                         end)); [reflexivity| |assumption].
    intros o k. rewrite Get_in_old by assumption.
    destruct (Get_in_truthy h options k Hb) as [x ->]. reflexivity.
  - rewrite ProxyClient_body_falsy by assumption.
    cbn [heap set_heap]. rewrite <- app_assoc. cbn [app].
    rewrite (ProxyClient_body_run host h [empty_object] rs tr ck _
               (fun _ => VUndefined)); [reflexivity| |reflexivity].
    intros o k. rewrite length_app. cbn [length].
    unfold Get_in. rewrite lookup_app_r by lia.
    replace (length h + 1 - length h)%nat with 1%nat by lia. reflexivity.
Qed.

Lemma or_default_truthy v d : ToBoolean d = true -> ToBoolean (or_default v d) = true.
Proof. unfold or_default. destruct (ToBoolean v) eqn:E; auto. Qed.

Lemma or_default_falsy v d : ToBoolean v = false -> or_default v d = d.
Proof. unfold or_default. now intros ->. Qed.

Lemma or_default_keep v d : ToBoolean v = true -> or_default v d = v.
Proof. unfold or_default. now intros ->. Qed.

Lemma client_object_get r lg t a :
  object_get (client_object r lg t a) "rootUrl" = r /\
  object_get (client_object r lg t a) "logger" = lg /\
  object_get (client_object r lg t a) "timeout" = t /\
  object_get (client_object r lg t a) "_authorization" = a.
Proof. repeat split; reflexivity. Qed.

(** What the constructor returns is a client. *)
Lemma new_ProxyClient_is_client host options w :
  allocated (heap w) options ->
  exists this w',
    new_ProxyClient host options w = (Normal this, w') /\
    is_client (heap w') this.
Proof.
  intros Hal. eexists _, _. split; [apply new_ProxyClient_run; assumption|].
  eexists _, _. split; [reflexivity|]. cbn [heap set_heap].
  split; [apply list_lookup_middle; reflexivity|].
  split; [reflexivity|].
  destruct (client_object_get
    (or_default (option_value (heap w) options "rootUrl") (VString "http://localhost"))
    (or_default (option_value (heap w) options "logger") (VNative (createMill host "ProxyClient")))
    (or_default (option_value (heap w) options "timeout") (VNumber 5000)) VNull)
    as (-> & -> & -> & _).
  repeat split; apply or_default_truthy; reflexivity.
Qed.

(** C10. Whatever the construction-time options are, the constructor
    returns a client, and every option that is falsy (absent, [null], [0],
    the empty string, or a missing options argument) gives way to its
    default: [rootUrl] becomes ["http://localhost"], [timeout] becomes
    [5000], [logger] becomes the logger [sawmill] makes for the class name. *)
Theorem falsy_options_take_defaults host options w :
  allocated (heap w) options ->
  let this := VObject (length (heap w)) in
  let opt := option_value (heap w) options in
  exists w',
    new_ProxyClient host options w = (Normal this, w') /\
    (ToBoolean (opt "rootUrl") = false ->
     Get_in (heap w') this "rootUrl" = Normal (VString "http://localhost")) /\
    (ToBoolean (opt "timeout") = false ->
     Get_in (heap w') this "timeout" = Normal (VNumber 5000)) /\
    (ToBoolean (opt "logger") = false ->
     Get_in (heap w') this "logger"
     = Normal (VNative (createMill host "ProxyClient"))).
Proof.
  intros Hal this opt. eexists. split; [apply new_ProxyClient_run; assumption|].
  cbn [heap set_heap]. unfold this. rewrite !Get_in_new.
  fold opt.
  destruct (client_object_get
    (or_default (opt "rootUrl") (VString "http://localhost"))
    (or_default (opt "logger") (VNative (createMill host "ProxyClient")))
    (or_default (opt "timeout") (VNumber 5000)) VNull)
    as (-> & -> & -> & _).
  repeat split; intros Hf; now rewrite or_default_falsy.
Qed.

(** An options record with every option falsy: [{rootUrl: "", timeout: 0,
    logger: null}]. *)
Lemma falsy_options_take_defaults_witness :
  let w := set_heap [plain_object [("rootUrl", VString ""); ("timeout", VNumber 0);
                                   ("logger", VNull)]] empty_world in
  exists w',
    new_ProxyClient node (VObject 0) w = (Normal (VObject 1), w') /\
    Get_in (heap w') (VObject 1) "rootUrl" = Normal (VString "http://localhost") /\
    Get_in (heap w') (VObject 1) "timeout" = Normal (VNumber 5000) /\
    Get_in (heap w') (VObject 1) "logger" = Normal (VNative 1).
Proof.
  intros w.
  destruct (falsy_options_take_defaults node (VObject 0) w) as (w' & Hrun & Hr & Ht & Hl).
  - simpl. lia.
  - exists w'. split; [exact Hrun|].
    split; [apply Hr; reflexivity|].
    split; [apply Ht; reflexivity|apply Hl; reflexivity].
Defined.

(** ** Child clients *)

Lemma is_client_allocated h this : is_client h this -> allocated h this.
Proof.
  intros (l & o & -> & Hl & _). simpl. eapply lookup_lt_Some. eassumption.
Qed.

Lemma getChild_run host w l o lo :
  heap w !! l = Some o ->
  obj_proto o = ProxyClientPrototype ->
  ToBoolean (object_get o "rootUrl") = true ->
  ToBoolean (object_get o "logger") = true ->
  ToBoolean (object_get o "timeout") = true ->
  (lo < length (heap w))%nat ->
  getChild host (VObject l) (VObject lo) w
  = (Normal (VObject (length (heap w))),
     set_heap (heap w ++
               [client_object (object_get o "rootUrl") (object_get o "logger")
                  (object_get o "timeout")
                  (match heap w !! lo with
                   | Some oo => object_get oo "auth"
                   | None => VUndefined
                   end)]) w).
Proof.
  intros Hl Hp Hr Hlg Ht Hlo.
  assert (Hal : allocated (heap w) (VObject l)).
  { simpl. eapply lookup_lt_Some. eassumption. }
  unfold getChild, constructor_createClient.
  rewrite !bind_bind, bind_constructor_name, Hl.
  cbn [fmap option_fmap option_map]. rewrite Hp.
  change (strict_equals (VString "ProxyClient") (VString "ProxyClient")) with true.
  cbv iota. rewrite bind_ret.
  unfold createClient, ProxyClient. unfold bind at 1.
  rewrite new_ProxyClient_run by assumption.
  cbn [ToBoolean]. unfold option_value. cbn [ToBoolean Get_in]. rewrite Hl.
  rewrite !or_default_keep by assumption.
  destruct w as [h rs tr ck]. cbn [heap set_heap responses trace clock] in *.
  js_run. rewrite (Get_in_old h _ (VObject lo)) by exact Hlo.
  cbn [Get_in]. js_run. reflexivity.
Qed.

(** C6. Deriving a child from a client with an options record yields a
    new client object: its [rootUrl], [logger] and [timeout] are the
    parent's, its authorization is [options.auth], and every object that
    existed before, the parent with its authorization among them, is left
    as it was. *)
Theorem getChild_derives host w this options :
  is_client (heap w) this ->
  (exists l, options = VObject l /\ (l < length (heap w))%nat) ->
  exists child w',
    getChild host this options w = (Normal child, w') /\
    child <> this /\
    is_client (heap w') child /\
    Get_in (heap w') child "rootUrl" = Get_in (heap w) this "rootUrl" /\
    Get_in (heap w') child "logger" = Get_in (heap w) this "logger" /\
    Get_in (heap w') child "timeout" = Get_in (heap w) this "timeout" /\
    Get_in (heap w') child "_authorization" = Get_in (heap w) options "auth" /\
    (forall l, (l < length (heap w))%nat -> heap w' !! l = heap w !! l) /\
    (forall k, Get_in (heap w') this k = Get_in (heap w) this k).
Proof.
  intros Hc (lo & -> & Hlo).
  destruct Hc as (l & o & -> & Hl & Hp & Hr & Hlg & Ht).
  eexists _, _. split; [eapply getChild_run; eassumption|].
  cbn [heap set_heap].
  split.
  { intros [= E]. apply lookup_lt_Some in Hl. lia. }
  split.
  { eexists _, _. split; [reflexivity|].
    split; [apply list_lookup_middle; reflexivity|].
    repeat split; assumption. }
  rewrite !Get_in_new. cbn [Get_in]. rewrite Hl.
  repeat split.
  - intros l0 Hl0. now rewrite lookup_app_l.
  - intros k. rewrite lookup_app_l; [now rewrite Hl|].
    eapply lookup_lt_Some; eassumption.
Qed.

(** A parent built with [rootUrl: "https://api.example/v1"], and a child
    derived from it with [{auth: "tok"}]. *)
Lemma getChild_derives_witness :
  let w := snd (new_ProxyClient node (VObject 0)
                  (set_heap [plain_object [("rootUrl", VString "https://api.example/v1")];
                             plain_object [("auth", VString "tok")]] empty_world)) in
  exists child w',
    getChild node (VObject 2) (VObject 1) w = (Normal child, w') /\
    child <> VObject 2 /\
    Get_in (heap w') child "rootUrl" = Normal (VString "https://api.example/v1") /\
    Get_in (heap w') child "_authorization" = Normal (VString "tok") /\
    Get_in (heap w') (VObject 2) "_authorization" = Normal VNull.
Proof.
  intros w.
  destruct (getChild_derives node w (VObject 2) (VObject 1))
    as (child & w' & Hrun & Hne & _ & Hr & _ & _ & Ha & _ & Hp).
  - eexists _, _. split; [reflexivity|].
    split; [vm_compute; reflexivity|].
    repeat split; reflexivity.
  - exists 1%nat. split; [reflexivity|]. vm_compute. lia.
  - exists child, w'. split; [exact Hrun|]. split; [exact Hne|].
    split; [rewrite Hr; reflexivity|].
    split; [rewrite Ha; reflexivity|].
    rewrite Hp. reflexivity.
Defined.

(** ** Resolving a path *)

Lemma getUrl_run host w this p :
  getUrl host this (VString p) w
  = if ToBoolean (u_hostname (url_parse host p)) then (Normal (VString p), w)
    else match Get_in (heap w) this "rootUrl" with
         | Normal rootUrl => (Normal (VString (ToString host rootUrl ++ p)), w)
         | Throw e => (Throw e, w)
         end.
Proof.
  unfold getUrl, url_parse_value. rewrite bind_ret.
  destruct (ToBoolean (u_hostname (url_parse host p))); [reflexivity|].
  rewrite bind_Get. destruct (Get_in (heap w) this "rootUrl"); reflexivity.
Qed.

(** C1. For a path string, [getUrl] decides on the host name that
    [url.parse] finds in it: with one, the path comes back as it is;
    without one, the result is the client's [rootUrl] followed by the path,
    character for character.  Nothing else happens. *)
Theorem getUrl_absolute_or_concat host w this p :
  (ToBoolean (u_hostname (url_parse host p)) = true ->
   getUrl host this (VString p) w = (Normal (VString p), w)) /\
  (ToBoolean (u_hostname (url_parse host p)) = false ->
   forall rootUrl,
     Get_in (heap w) this "rootUrl" = Normal rootUrl ->
     getUrl host this (VString p) w
     = (Normal (VString (ToString host rootUrl ++ p)), w)).
Proof.
  rewrite getUrl_run. split; intros Hh; rewrite Hh.
  - reflexivity.
  - intros rootUrl Hroot. rewrite Hroot. reflexivity.
Qed.

(** The two examples of the documentation, and a root that ends in a
    slash: the slashes are both kept. *)
Lemma getUrl_absolute_or_concat_witness :
  let w := set_heap [client_object (VString "http://localhost") (VNative 1)
                       (VNumber 5000) VNull;
                     client_object (VString "http://localhost/") (VNative 1)
                       (VNumber 5000) VNull] empty_world in
  getUrl node (VObject 0) (VString "https://other.example/x") w
  = (Normal (VString "https://other.example/x"), w) /\
  getUrl node (VObject 0) (VString "/search") w
  = (Normal (VString "http://localhost/search"), w) /\
  getUrl node (VObject 1) (VString "/search") w
  = (Normal (VString "http://localhost//search"), w).
Proof.
  intros w. split; [|split].
  - apply (proj1 (getUrl_absolute_or_concat node w (VObject 0)
                    "https://other.example/x")). reflexivity.
  - apply (proj2 (getUrl_absolute_or_concat node w (VObject 0) "/search")
             eq_refl (VString "http://localhost")). reflexivity.
  - apply (proj2 (getUrl_absolute_or_concat node w (VObject 1) "/search")
             eq_refl (VString "http://localhost/")). reflexivity.
Defined.

(** ** Classifying a response *)

Lemma Get_in_option_value h v k :
  ToBoolean v = true -> Get_in h v k = Normal (option_value h v k).
Proof.
  intros Hb. unfold option_value. rewrite Hb.
  destruct (Get_in_truthy h v k Hb) as [x ->]. reflexivity.
Qed.

Lemma error_object_message host v :
  object_get (error_object host v) "message" = error_message host v.
Proof. destruct v; reflexivity. Qed.

(** The function once [body] is known: [fld] gives the properties of
    the body, and the response object [resp] sits at [lr]. *)
Lemma rejectResponse_tail host lr resp bodyv (fld : string -> value) hx rs tr ck :
  (forall k, Get_in hx bodyv k = Normal (fld k)) ->
  (forall o k, Get_in (hx ++ [o]) bodyv k = Normal (fld k)) ->
  hx !! lr = Some resp ->
  let err0 := error_object host
                (or_default (fld "message") (object_get resp "text")) in
  let err1 := object_put "code" (or_default (fld "code") (object_get resp "status")) err0 in
  (let* message := or_else (Get bodyv "message") (Get (VObject lr) "text") in
   let* err := new_Error host message in
   let* code := or_else (Get bodyv "code") (Get (VObject lr) "status") in
   Put err "code" code ;;
   let* name := or_else (Get bodyv "name")
                  (let* status := Get (VObject lr) "status" in
                   let* stripped := replace_whitespace (status_phrase host status) in
                   ret (concat host stripped (VString "Error"))) in
   Put err "name" name ;;
   Put err "response" (VObject lr) ;;
   ret (when_reject err))
    {| heap := hx; responses := rs; trace := tr; clock := ck |}
  = if ToBoolean (fld "name")
    then (Normal (Rejected (VObject (length hx))),
          {| heap := hx ++ [object_put "response" (VObject lr)
                              (object_put "name" (fld "name") err1)];
             responses := rs; trace := tr; clock := ck |})
    else match status_phrase host (object_get resp "status") with
         | VString s =>
             (Normal (Rejected (VObject (length hx))),
              {| heap := hx ++ [object_put "response" (VObject lr)
                                  (object_put "name"
                                     (VString (remove_whitespace s ++ "Error")) err1)];
                 responses := rs; trace := tr; clock := ck |})
         | _ => (Throw (TypeError "Cannot read property 'replace' of undefined"),
                 {| heap := hx ++ [err1];
                    responses := rs; trace := tr; clock := ck |})
         end.
Proof.
  intros H0 H1 Hl err0 err1.
  assert (Hresp : forall k, Get_in hx (VObject lr) k = Normal (object_get resp k)).
  { intros k. cbn [Get_in]. now rewrite Hl. }
  assert (Hresp1 : forall o k, Get_in (hx ++ [o]) (VObject lr) k = Normal (object_get resp k)).
  { intros o k. rewrite Get_in_old; [apply Hresp|]. simpl. eapply lookup_lt_Some, Hl. }
  subst err1 err0. unfold or_default, status_phrase, new_Error, replace_whitespace.
  destruct (ToBoolean (fld "message")) eqn:Hm;
    destruct (ToBoolean (fld "code")) eqn:Hc;
    destruct (ToBoolean (fld "name")) eqn:Hn;
    try destruct (STATUS_CODES host !! ToString host (object_get resp "status"))
      as [s|] eqn:Hs;
    repeat first [ js_step | rewrite H0 | rewrite H1 | rewrite Hresp
                 | rewrite Hresp1 | rewrite Hm | rewrite Hc | rewrite Hn
                 | rewrite Hs | rewrite alter_at_end ];
    reflexivity.
Qed.

Lemma rejectResponse_run host w this lr resp :
  heap w !! lr = Some resp ->
  allocated (heap w) (object_get resp "body") ->
  let body := object_get resp "body" in
  let field := option_value (heap w) body in
  let name := field "name" in
  let phrase := status_phrase host (object_get resp "status") in
  let h1 := heap w ++ (if ToBoolean body then [] else [empty_object]) in
  let err0 := error_object host
                (or_default (field "message") (object_get resp "text")) in
  let err1 := object_put "code" (or_default (field "code") (object_get resp "status")) err0 in
  rejectResponse host this (VObject lr) w
  = if ToBoolean name
    then (Normal (Rejected (VObject (length h1))),
          set_heap (h1 ++ [object_put "response" (VObject lr)
                             (object_put "name" name err1)]) w)
    else match phrase with
         | VString s =>
             (Normal (Rejected (VObject (length h1))),
              set_heap (h1 ++ [object_put "response" (VObject lr)
                                 (object_put "name"
                                    (VString (remove_whitespace s ++ "Error")) err1)]) w)
         | _ => (Throw (TypeError "Cannot read property 'replace' of undefined"),
                 set_heap (h1 ++ [err1]) w)
         end.
Proof.
  intros Hl Hal body field name phrase h1 err0 err1.
  destruct w as [h rs tr ck]. cbn [heap set_heap responses trace clock] in *.
  unfold rejectResponse.
  js_step. js_step. cbn [Get_in]. rewrite Hl. fold body.
  subst h1 err1 err0 name phrase field.
  destruct (ToBoolean body) eqn:Hb.
  - rewrite app_nil_r.
    apply (rejectResponse_tail host lr resp body (option_value h body) h rs tr ck).
    + intros k. now apply Get_in_option_value.
    + intros o k. rewrite Get_in_old by assumption. now apply Get_in_option_value.
    + assumption.
  - js_step.
    assert (Hf : forall k, option_value h body k = VUndefined).
    { intros k. unfold option_value. now rewrite Hb. }
    rewrite !Hf.
    apply (rejectResponse_tail host lr resp (VObject (length h)) (fun _ => VUndefined)
             (h ++ [empty_object]) rs tr ck).
    + intros k. rewrite Get_in_new. reflexivity.
    + intros o k. rewrite <- app_assoc. cbn [app]. rewrite Get_in_new. reflexivity.
    + rewrite lookup_app_l; [assumption|]. eapply lookup_lt_Some, Hl.
Qed.

(** C2. For a response whose body names the error or whose status code
    has a phrase in [http.STATUS_CODES], [rejectResponse] builds an error
    with: [message], the body's [message] else the response text (as
    [new Error] stores it: a string stays as it is); [code], the body's
    [code] else the status code; [name], the body's [name] else the phrase
    without its white space followed by ["Error"]; [response], the response
    itself, which is left untouched along with every other object. *)
Theorem rejectResponse_error_fields host w this lr resp :
  heap w !! lr = Some resp ->
  allocated (heap w) (object_get resp "body") ->
  let field := option_value (heap w) (object_get resp "body") in
  let status := object_get resp "status" in
  let text := object_get resp "text" in
  (ToBoolean (field "name") = true \/
   exists phrase, STATUS_CODES host !! ToString host status = Some phrase) ->
  exists err w',
    rejectResponse host this (VObject lr) w = (Normal (Rejected err), w') /\
    Get_in (heap w') err "message"
    = Normal (error_message host (or_default (field "message") text)) /\
    (forall s, or_default (field "message") text = VString s ->
               Get_in (heap w') err "message" = Normal (VString s)) /\
    Get_in (heap w') err "code" = Normal (or_default (field "code") status) /\
    (ToBoolean (field "name") = true ->
     Get_in (heap w') err "name" = Normal (field "name")) /\
    (ToBoolean (field "name") = false ->
     forall phrase, STATUS_CODES host !! ToString host status = Some phrase ->
     Get_in (heap w') err "name"
     = Normal (VString (remove_whitespace phrase ++ "Error"))) /\
    Get_in (heap w') err "response" = Normal (VObject lr) /\
    (forall l, (l < length (heap w))%nat -> heap w' !! l = heap w !! l) /\
    trace w' = trace w.
Proof.
  intros Hl Hal field status text Hname.
  pose proof (rejectResponse_run host w this lr resp Hl Hal) as Hrun.
  cbv zeta in Hrun. fold field status text in Hrun.
  set (h1 := heap w ++ (if ToBoolean (object_get resp "body") then []
                        else [empty_object])) in *.
  assert (Hframe : forall t l, (l < length (heap w))%nat ->
                               (h1 ++ t) !! l = heap w !! l).
  { intros t l Hlt. unfold h1. rewrite <- app_assoc. now rewrite lookup_app_l. }
  assert (Hmsg : forall x y,
    object_get (object_put "response" x (object_put "name" y
      (object_put "code" (or_default (field "code") status)
         (error_object host (or_default (field "message") text))))) "message"
    = error_message host (or_default (field "message") text)).
  { intros x y. rewrite !object_get_put_ne by discriminate.
    apply error_object_message. }
  destruct (ToBoolean (field "name")) eqn:Hn.
  - eexists _, _. split; [exact Hrun|]. cbn [heap set_heap trace].
    rewrite !Get_in_new, Hmsg.
    split; [reflexivity|].
    split; [intros s ->; reflexivity|].
    split; [now rewrite !object_get_put_ne, object_get_put_eq by discriminate|].
    split; [intros _; now rewrite object_get_put_ne, object_get_put_eq by discriminate|].
    split; [discriminate|].
    split; [now rewrite object_get_put_eq|].
    split; [apply Hframe|reflexivity].
  - destruct Hname as [Hname|[phrase Hphrase]]; [discriminate|].
    unfold status_phrase in Hrun. fold status in Hrun. rewrite Hphrase in Hrun.
    eexists _, _. split; [exact Hrun|]. cbn [heap set_heap trace].
    rewrite !Get_in_new, Hmsg.
    split; [reflexivity|].
    split; [intros s ->; reflexivity|].
    split; [now rewrite !object_get_put_ne, object_get_put_eq by discriminate|].
    split; [discriminate|].
    split.
    { intros _ phrase' Hphrase'. rewrite Hphrase in Hphrase'.
      injection Hphrase' as <-.
      now rewrite object_get_put_ne, object_get_put_eq by discriminate. }
    split; [now rewrite object_get_put_eq|].
    split; [apply Hframe|reflexivity].
Qed.

Lemma rejectResponse_error_fields_witness :
  (exists err w',
     rejectResponse node VUndefined (VObject 1) not_found_world
     = (Normal (Rejected err), w') /\
     Get_in (heap w') err "message" = Normal (VString "Not Found") /\
     Get_in (heap w') err "code" = Normal (VNumber 404) /\
     Get_in (heap w') err "name" = Normal (VString "NotFoundError") /\
     Get_in (heap w') err "response" = Normal (VObject 1)) /\
  (exists err w',
     rejectResponse node VUndefined (VObject 1) custom_error_world
     = (Normal (Rejected err), w') /\
     Get_in (heap w') err "message" = Normal (VString "bad thing") /\
     Get_in (heap w') err "code" = Normal (VString "E1") /\
     Get_in (heap w') err "name" = Normal (VString "CustomError") /\
     Get_in (heap w') err "response" = Normal (VObject 1)).
Proof.
  split.
  - destruct (rejectResponse_error_fields node not_found_world VUndefined 1%nat
                (plain_object [("status", VNumber 404); ("body", VObject 0);
                               ("text", VString "Not Found")]))
      as (err & w' & Hrun & _ & Hm & Hc & _ & Hn & Hr & _).
    + reflexivity.
    + vm_compute. lia.
    + right. exists "Not Found". reflexivity.
    + exists err, w'. split; [exact Hrun|].
      split; [apply Hm; reflexivity|].
      split; [exact Hc|].
      split; [apply (Hn eq_refl "Not Found"); reflexivity|exact Hr].
  - destruct (rejectResponse_error_fields node custom_error_world VUndefined 1%nat
                (plain_object [("status", VNumber 500); ("body", VObject 0);
                               ("text", VString "{...}")]))
      as (err & w' & Hrun & _ & Hm & Hc & Hn & _ & Hr & _).
    + reflexivity.
    + vm_compute. lia.
    + left. reflexivity.
    + exists err, w'. split; [exact Hrun|].
      split; [apply Hm; reflexivity|].
      split; [exact Hc|].
      split; [apply Hn; reflexivity|exact Hr].
Defined.

(** C4. [rejectResponse] on a response with status 520 and body [{}]:
    the status has no phrase in [http.STATUS_CODES], so [replace] is called
    on [undefined] and the function throws a [TypeError] instead of
    returning a rejected promise. *)
Theorem rejectResponse_throws_on_unknown_status :
  fst (rejectResponse node VUndefined (VObject 1) unknown_status_world)
  = Throw (TypeError "Cannot read property 'replace' of undefined").
Proof. vm_compute. reflexivity. Qed.

(** The same on any host: without a name in the body and without a phrase
    for the status, no promise is returned. *)
Lemma rejectResponse_throws host w this lr resp :
  heap w !! lr = Some resp ->
  allocated (heap w) (object_get resp "body") ->
  ToBoolean (option_value (heap w) (object_get resp "body") "name") = false ->
  STATUS_CODES host !! ToString host (object_get resp "status") = None ->
  fst (rejectResponse host this (VObject lr) w)
  = Throw (TypeError "Cannot read property 'replace' of undefined").
Proof.
  intros Hl Hal Hn Hs.
  rewrite (rejectResponse_run host w this lr resp Hl Hal). cbv zeta.
  rewrite Hn. unfold status_phrase. rewrite Hs. reflexivity.
Qed.

(** ** Reading through an update *)

Lemma Get_in_alter_ne h l k x v k' :
  k <> k' -> Get_in (alter (object_put k x) l h) v k' = Get_in h v k'.
Proof.
  intros Hne. destruct v; try reflexivity. cbn [Get_in]. f_equal.
  destruct (decide (l = l0)) as [->|Hl].
  - rewrite list_lookup_alter. case_decide; [|congruence].
    destruct (h !! l0) as [o|]; [|reflexivity].
    cbn. now apply object_get_put_ne.
  - now rewrite list_lookup_alter_ne.
Qed.

Lemma Get_in_same_object h v k x :
  Get_in h v k = Normal x -> forall k', exists y, Get_in h v k' = Normal y.
Proof. destruct v; try discriminate; intros _ k'; cbn; eauto. Qed.

Lemma is_client_Get h this k :
  is_client h this ->
  exists l o, this = VObject l /\ h !! l = Some o /\
              Get_in h this k = Normal (object_get o k).
Proof.
  intros (l & o & -> & Hl & _). exists l, o. cbn. now rewrite Hl.
Qed.

(** ** Log records *)

Lemma _formatRequest_run w request hv :
  Get_in (heap w) request "headers" = Normal hv ->
  ToBoolean hv = true ->
  exists record, _formatRequest request w = (Normal record, w).
Proof.
  intros Hh Hb. unfold _formatRequest.
  destruct (Get_in_same_object _ _ _ _ Hh "req") as [rv Hrv].
  destruct (Get_in_same_object _ _ _ _ Hh "method") as [mv Hmv].
  destruct (Get_in_same_object _ _ _ _ Hh "url") as [uv Huv].
  rewrite bind_or_else, bind_Get, Hh, Hb, bind_Get, Hrv.
  destruct (ToBoolean rv) eqn:Hrb.
  - destruct (Get_in_truthy (heap w) rv "_headers" Hrb) as [x Hx].
    rewrite !bind_bind, bind_Get, Hrv, bind_Get, Hx, bind_Get, Hmv, bind_Get, Huv.
    eexists. reflexivity.
  - rewrite bind_ret, bind_Get, Hmv, bind_Get, Huv. eexists. reflexivity.
Qed.

Lemma _formatResponse_run w response x :
  Get_in (heap w) response "status" = Normal x ->
  exists record, _formatResponse response w = (Normal record, w).
Proof.
  intros Hs. unfold _formatResponse.
  destruct (Get_in_same_object _ _ _ _ Hs "headers") as [hv Hhv].
  rewrite bind_Get, Hs, bind_Get, Hhv. eexists. reflexivity.
Qed.

(** ** Building a request *)

Lemma getUrl_returns_string host w this p :
  is_client (heap w) this ->
  exists href, getUrl host this (VString p) w = (Normal (VString href), w).
Proof.
  intros Hc. destruct (is_client_Get _ _ "rootUrl" Hc) as (l & o & _ & _ & Hg).
  rewrite getUrl_run, Hg.
  destruct (ToBoolean (u_hostname (url_parse host p))); eexists; reflexivity.
Qed.


(** The verb methods are [request] with the method filled in. *)
Lemma verb_methods host this p :
  get host this p = request host this (VString "GET") p /\
  post host this p = request host this (VString "POST") p /\
  put host this p = request host this (VString "PUT") p /\
  del host this p = request host this (VString "DELETE") p.
Proof. repeat split. Qed.

Lemma is_client_logger h this :
  is_client h this ->
  exists logger,
    Get_in h this "logger" = Normal logger /\ ToBoolean logger = true.
Proof.
  intros (l & o & -> & Hl & _ & _ & Hb & _).
  exists (object_get o "logger"). cbn. now rewrite Hl.
Qed.





(** ** Choosing the transport *)


Lemma _createCoreRequest_run host w this lo opts :
  heap w !! lo = Some opts ->
  let protocol := object_get opts "protocol" in
  _createCoreRequest host this (VObject lo) w
  = if strict_equals protocol (VString "http:") then
      (Normal {| cr_transport := PlainHttp; cr_options := VObject lo;
                 cr_listeners := []; cr_body := [] |},
       {| heap := heap w; responses := responses w;
          trace := trace w ++ [HttpRequest (VObject lo)]; clock := clock w |})
    else if strict_equals protocol (VString "https:") then
      (Normal {| cr_transport := Tls; cr_options := VObject lo;
                 cr_listeners := []; cr_body := [] |},
       {| heap := heap w; responses := responses w;
          trace := trace w ++ [HttpsRequest (VObject lo)]; clock := clock w |})
    else
      (Throw (Thrown (VObject (length (heap w)))),
       set_heap (heap w ++
                 [error_object host
                    (VString (("Invalid protocol, " ++ ToString host protocol)
                              ++ ". Check rootUrl."))]) w).
Proof.
  intros Hl protocol. unfold _createCoreRequest.
  rewrite bind_Get. cbn [Get_in]. rewrite Hl. fold protocol.
  destruct (strict_equals protocol (VString "http:")).
  - unfold http_request. rewrite bind_emit. reflexivity.
  - rewrite bind_Get. cbn [Get_in]. rewrite Hl. fold protocol.
    destruct (strict_equals protocol (VString "https:")).
    + unfold https_request. rewrite bind_emit. reflexivity.
    + rewrite bind_Get. cbn [Get_in]. rewrite Hl. fold protocol.
      unfold new_Error. rewrite bind_alloc. reflexivity.
Qed.

(** ** The proxy middleware *)

Lemma length_force_headers parsed lh h :
  length (force_headers parsed lh h) = length h.
Proof. unfold force_headers. now rewrite !length_alter. Qed.

Lemma Get_in_forced parsed lh h t v k :
  allocated h v ->
  k <> "Connection" -> k <> "Host" -> k <> "Origin" ->
  Get_in (force_headers parsed lh h ++ t) v k = Get_in h v k.
Proof.
  intros Hal H1 H2 H3.
  rewrite Get_in_old.
  - unfold force_headers. now rewrite !Get_in_alter_ne by congruence.
  - destruct v; try exact I. simpl in *. now rewrite length_force_headers.
Qed.

Lemma force_headers_lookup parsed lh h hdrs :
  h !! lh = Some hdrs ->
  force_headers parsed lh h !! lh
  = Some (object_put "Connection" (VString "Keep-Alive")
            (object_put "Host" (u_host parsed)
               (object_put "Origin" (u_host parsed) hdrs))).
Proof.
  intros Hl. unfold force_headers.
  rewrite !list_lookup_alter. repeat (case_decide; [|congruence]).
  now rewrite Hl.
Qed.

Lemma subapp_middleware_run host w self lq rq u lh hdrs data res href :
  is_client (heap w) self ->
  heap w !! lq = Some rq ->
  object_get rq "url" = VString u ->
  object_get rq "headers" = VObject lh ->
  heap w !! lh = Some hdrs ->
  getUrl host self (VString u) w = (Normal (VString href), w) ->
  let req := {| im_this := VObject lq; im_data := data |} in
  let parsed := url_parse host href in
  let method := object_get rq "method" in
  let options := VObject (length (heap w)) in
  let h' := force_headers parsed lh (heap w) ++ [proxy_options parsed method lh] in
  exists logger record,
    Get_in (heap w) self "logger" = Normal logger /\
    subapp_middleware host self req res w
    = if strict_equals (u_protocol parsed) (VString "http:") then
        (Normal (proxied_request PlainHttp self req res (clock w)
                   (VString href) options),
         {| heap := h'; responses := responses w;
            trace := trace w ++ [HttpRequest options;
                                 LoggerInfo logger record "< %s %s"
                                   [method; VString href]];
            clock := clock w |})
      else if strict_equals (u_protocol parsed) (VString "https:") then
        (Normal (proxied_request Tls self req res (clock w)
                   (VString href) options),
         {| heap := h'; responses := responses w;
            trace := trace w ++ [HttpsRequest options;
                                 LoggerInfo logger record "< %s %s"
                                   [method; VString href]];
            clock := clock w |})
      else
        (Throw (Thrown (VObject (S (length (heap w))))),
         {| heap := h' ++ [error_object host
                             (VString (("Invalid protocol, "
                                        ++ ToString host (u_protocol parsed))
                                       ++ ". Check rootUrl."))];
            responses := responses w; trace := trace w; clock := clock w |}).
Proof.
  intros Hc Hq Hu Hh Hlh Hg req parsed method options h'.
  destruct (is_client_Get _ _ "logger" Hc) as (ls & os & Hs & Hls & Hlog).
  pose proof (is_client_allocated _ _ Hc) as Hals.
  assert (Hlt : ToBoolean (object_get os "logger") = true).
  { destruct Hc as (l0 & o0 & E & Hl0 & _ & _ & Hb & _).
    rewrite Hs in E. injection E as <-.
    rewrite Hls in Hl0. injection Hl0 as <-. exact Hb. }
  destruct w as [h rs tr ck]. cbn [heap responses trace clock] in *.
  unfold subapp_middleware.
  rewrite bind_Date_now. cbn [clock im_this req].
  rewrite bind_Get. cbn [Get_in heap]. rewrite Hq, Hu.
  unfold bind at 1. rewrite Hg.
  unfold url_parse_value. rewrite bind_ret. fold parsed.
  rewrite bind_Get. cbn [Get_in heap]. rewrite Hq. fold method.
  rewrite bind_Get. cbn [Get_in heap]. rewrite Hq, Hh.
  unfold util_extend. cbn [rev app assign_all].
  rewrite !bind_bind. rewrite bind_Put. cbn [heap set_heap].
  rewrite !bind_bind. rewrite bind_Put. cbn [heap set_heap].
  rewrite !bind_bind. rewrite bind_Put. cbn [heap set_heap].
  rewrite bind_ret, bind_ret. fold (force_headers parsed lh h).
  rewrite bind_alloc. cbn [heap set_heap].
  fold (proxy_options parsed method lh).
  unfold set_heap. cbn [heap responses trace clock].
  rewrite length_force_headers. subst options. fold h'.
  assert (Hopt : h' !! length h = Some (proxy_options parsed method lh)).
  { unfold h'. apply list_lookup_middle. now rewrite length_force_headers. }
  assert (Hread : forall v k, allocated h v ->
            k <> "Connection" -> k <> "Host" -> k <> "Origin" ->
            Get_in h' v k = Get_in h v k).
  { intros v k. unfold h'. apply Get_in_forced. }
  assert (Hq' : forall k, Get_in h (VObject lq) k = Normal (object_get rq k)).
  { intros k. cbn [Get_in]. now rewrite Hq. }
  assert (Halq : allocated h (VObject lq)).
  { simpl. eapply lookup_lt_Some, Hq. }
  assert (Hlen : length h' = S (length h)).
  { unfold h'. rewrite length_app, length_force_headers. simpl. lia. }
  unfold bind at 1.
  rewrite (_createCoreRequest_run host
             {| heap := h'; responses := rs; trace := tr; clock := ck |}
             self (length h) (proxy_options parsed method lh) Hopt).
  cbv zeta. cbn [heap responses trace clock set_heap].
  change (object_get (proxy_options parsed method lh) "protocol")
    with (u_protocol parsed).
  destruct (strict_equals (u_protocol parsed) (VString "http:")).
  - destruct (_formatRequest_run
                {| heap := h'; responses := rs;
                   trace := tr ++ [HttpRequest (VObject (length h))]; clock := ck |}
                (VObject lq) (VObject lh)) as [record Hrec].
    { cbn [heap]. rewrite Hread by (assumption || discriminate).
      now rewrite Hq', Hh. }
    { reflexivity. }
    exists (object_get os "logger"), record. split; [exact Hlog|].
    rewrite bind_Get. cbn [heap].
    rewrite Hread by (assumption || discriminate). rewrite Hlog.
    unfold logger_method. rewrite bind_bind, bind_Get. cbn [heap].
    destruct (Get_in_truthy h' (object_get os "logger") "info" Hlt) as [x ->].
    rewrite bind_ret. unfold bind at 1. rewrite Hrec.
    rewrite bind_Get. cbn [heap].
    rewrite Hread by (assumption || discriminate). rewrite Hq'.
    rewrite bind_emit. cbn [heap responses trace clock].
    rewrite <- app_assoc. reflexivity.
  - destruct (strict_equals (u_protocol parsed) (VString "https:")).
    + destruct (_formatRequest_run
                  {| heap := h'; responses := rs;
                     trace := tr ++ [HttpsRequest (VObject (length h))]; clock := ck |}
                  (VObject lq) (VObject lh)) as [record Hrec].
      { cbn [heap]. rewrite Hread by (assumption || discriminate).
        now rewrite Hq', Hh. }
      { reflexivity. }
      exists (object_get os "logger"), record. split; [exact Hlog|].
      rewrite bind_Get. cbn [heap].
      rewrite Hread by (assumption || discriminate). rewrite Hlog.
      unfold logger_method. rewrite bind_bind, bind_Get. cbn [heap].
      destruct (Get_in_truthy h' (object_get os "logger") "info" Hlt) as [x ->].
      rewrite bind_ret. unfold bind at 1. rewrite Hrec.
      rewrite bind_Get. cbn [heap].
      rewrite Hread by (assumption || discriminate). rewrite Hq'.
      rewrite bind_emit. cbn [heap responses trace clock].
      rewrite <- app_assoc. reflexivity.
    + exists (object_get os "logger"), []. split; [exact Hlog|].
      rewrite Hlen. reflexivity.
Qed.

(** C8. For an inbound request that is forwarded (the address it
    resolves to is [http:] or [https:]), the outgoing request is made for
    the parts of [getUrl] of the inbound path, and its headers are the
    inbound headers object with [Connection] set to ["Keep-Alive"] and
    [Host] and [Origin] set to the host of that address. *)
Theorem subapp_forwards_to_getUrl host w self lq rq u lh hdrs data res :
  is_client (heap w) self ->
  heap w !! lq = Some rq ->
  object_get rq "url" = VString u ->
  object_get rq "headers" = VObject lh ->
  heap w !! lh = Some hdrs ->
  exists href,
    getUrl host self (VString u) w = (Normal (VString href), w) /\
    let target := url_parse host href in
    (u_protocol target = VString "http:" \/ u_protocol target = VString "https:" ->
     exists outgoing w' lo options headers,
       subapp_middleware host self {| im_this := VObject lq; im_data := data |} res w
       = (Normal outgoing, w') /\
       cr_options outgoing = VObject lo /\
       heap w' !! lo = Some options /\
       object_get options "protocol" = u_protocol target /\
       object_get options "hostname" = u_hostname target /\
       object_get options "port" = u_port target /\
       object_get options "path" = u_path target /\
       object_get options "method" = object_get rq "method" /\
       object_get options "headers" = VObject lh /\
       heap w' !! lh = Some headers /\
       obj_props headers
       = <["Connection" := VString "Keep-Alive"]>
           (<["Host" := u_host target]>
              (<["Origin" := u_host target]> (obj_props hdrs)))).
Proof.
  intros Hc Hq Hu Hh Hlh.
  destruct (getUrl_returns_string host w self u Hc) as [href Hg].
  exists href. split; [exact Hg|]. intros target Hproto.
  destruct (subapp_middleware_run host w self lq rq u lh hdrs data res href
              Hc Hq Hu Hh Hlh Hg) as (logger & record & _ & Hrun).
  cbv zeta in Hrun. fold target in Hrun.
  assert (Hopt : (force_headers target lh (heap w)
                  ++ [proxy_options target (object_get rq "method") lh])
                 !! length (heap w)
                 = Some (proxy_options target (object_get rq "method") lh)).
  { apply list_lookup_middle. now rewrite length_force_headers. }
  assert (Hhd : (force_headers target lh (heap w)
                 ++ [proxy_options target (object_get rq "method") lh]) !! lh
                = Some (object_put "Connection" (VString "Keep-Alive")
                          (object_put "Host" (u_host target)
                             (object_put "Origin" (u_host target) hdrs)))).
  { rewrite lookup_app_l.
    - now apply force_headers_lookup.
    - rewrite length_force_headers. eapply lookup_lt_Some, Hlh. }
  destruct Hproto as [Hp|Hp]; rewrite Hp in Hrun; cbn in Hrun;
    (eexists _, _, _, _, _; split; [exact Hrun|];
     split; [reflexivity|]; cbn [heap];
     split; [exact Hopt|];
     repeat (split; [reflexivity|]);
     split; [exact Hhd|reflexivity]).
Qed.

(** The scenario of the documentation: [GET /search?q=x] arriving at a
    handler bound to ["https://api.example/v1"]. *)
Lemma subapp_forwards_to_getUrl_witness :
  exists outgoing w' options headers,
    subapp_middleware node (VObject 1)
      {| im_this := VObject 3; im_data := ["a"; "b"] |} 7%N proxy_world
    = (Normal outgoing, w') /\
    cr_options outgoing = VObject 4 /\
    heap w' !! 4%nat = Some options /\
    object_get options "protocol" = VString "https:" /\
    object_get options "hostname" = VString "api.example" /\
    object_get options "path" = VString "/v1/search?q=x" /\
    heap w' !! 2%nat = Some headers /\
    obj_props headers
    = list_to_map [("host", VString "browser.example"); ("accept", VString "*/*");
                   ("Connection", VString "Keep-Alive");
                   ("Host", VString "api.example");
                   ("Origin", VString "api.example")].
Proof.
  destruct (subapp_forwards_to_getUrl node proxy_world (VObject 1) 3%nat
              (plain_object [("method", VString "GET"); ("url", VString "/search?q=x");
                             ("headers", VObject 2)])
              "/search?q=x" 2%nat
              (plain_object [("host", VString "browser.example");
                             ("accept", VString "*/*")])
              ["a"; "b"] 7%N)
    as (href & Hg & Hfwd).
  - eexists _, _. split; [reflexivity|].
    split; [vm_compute; reflexivity|].
    repeat split; reflexivity.
  - reflexivity.
  - reflexivity.
  - reflexivity.
  - reflexivity.
  - vm_compute in Hg. injection Hg as <-.
    destruct Hfwd as (outgoing & w' & lo & options & headers & Hrun & Ho & Hlo
                      & Hp & Hn & _ & Hpa & _ & _ & Hlh & Hhd).
    { right. reflexivity. }
    assert (Hfour : lo = 4%nat).
    { vm_compute in Hrun. injection Hrun as <- _. vm_compute in Ho.
      now injection Ho as <-. }
    subst lo.
    exists outgoing, w', options, headers.
    split; [exact Hrun|]. split; [exact Ho|]. split; [exact Hlo|].
    split; [exact Hp|]. split; [exact Hn|]. split; [exact Hpa|].
    split; [exact Hlh|]. rewrite Hhd. reflexivity.
Defined.

(** ** The scheme check *)







(** ** Relaying the upstream response *)

Lemma bind_update_response {B} f res (K : unit -> M B) w :
  bind (update_response f res) K w
  = K tt (set_responses (alter f res (responses w)) w).
Proof. reflexivity. Qed.

Lemma subapp_on_response_run w self req res start href li inc lhd hdrs data :
  is_client (heap w) self ->
  (exists lq, im_this req = VObject lq) ->
  heap w !! li = Some inc ->
  object_get inc "headers" = VObject lhd ->
  heap w !! lhd = Some hdrs ->
  exists logger record,
    subapp_on_response self req res start href
      {| im_this := VObject li; im_data := data |} w
    = (Normal tt,
       {| heap := heap w;
          responses :=
            alter (fun r => {| sr_statusCode := sr_statusCode r;
                               sr_headers := sr_headers r;
                               sr_body := sr_body r ++ data;
                               sr_ended := true |}) res
              (alter (fun r => {| sr_statusCode := sr_statusCode r;
                                  sr_headers := obj_props hdrs ∪ sr_headers r;
                                  sr_body := sr_body r;
                                  sr_ended := sr_ended r |}) res
                 (alter (fun r => {| sr_statusCode := object_get inc "statusCode";
                                     sr_headers := sr_headers r;
                                     sr_body := sr_body r;
                                     sr_ended := sr_ended r |}) res
                    (responses w)));
          trace := trace w ++
                   [LoggerInfo logger record "> %s %s %s %s ms"
                      [match Get_in (heap w) (im_this req) "method" with
                       | Normal m => m
                       | Throw _ => VUndefined
                       end;
                       href; object_get inc "statusCode";
                       toFixed3 (clock w - start)]];
          clock := clock w |}).
Proof.
  intros Hc [lq Hreq] Hli Hh Hlhd.
  destruct (is_client_Get _ _ "logger" Hc) as (ls & os & Hs & Hls & Hlog).
  assert (Hlt : ToBoolean (object_get os "logger") = true).
  { destruct Hc as (l0 & o0 & E & Hl0 & _ & _ & Hb & _).
    rewrite Hs in E. injection E as <-.
    rewrite Hls in Hl0. injection Hl0 as <-. exact Hb. }
  assert (Hinc : forall k, Get_in (heap w) (VObject li) k = Normal (object_get inc k)).
  { intros k. cbn [Get_in]. now rewrite Hli. }
  destruct (_formatResponse_run w (VObject li) _ (Hinc "status")) as [record Hrec].
  exists (object_get os "logger"), record.
  unfold subapp_on_response. cbn [im_this].
  rewrite bind_Date_now, bind_Get, Hlog.
  unfold logger_method. rewrite bind_bind, bind_Get.
  destruct (Get_in_truthy (heap w) (object_get os "logger") "info" Hlt) as [x ->].
  rewrite bind_ret. unfold bind at 1. rewrite Hrec.
  rewrite bind_Get, Hreq. cbn [Get_in].
  rewrite bind_Get, Hinc, bind_emit. cbn [heap].
  rewrite bind_Get. cbn [heap]. rewrite Hinc.
  unfold res_status. rewrite bind_update_response.
  rewrite bind_Get. cbn [heap set_responses]. rewrite Hinc, Hh.
  unfold bind at 1. unfold res_set, set_responses.
  cbn [heap responses trace clock]. rewrite Hlhd.
  unfold update_response at 1. cbn [heap set_responses responses trace clock].
  unfold pipe_to_response, update_response, set_responses.
  cbn [heap set_responses responses trace clock im_data].
  reflexivity.
Qed.



(** * Further properties *)

(** ** The constructor *)

(** X1. An option that is set (truthy) is what the client gets: the
    defaults only step in for falsy values. *)
Theorem truthy_options_are_kept host options w :
  allocated (heap w) options ->
  let this := VObject (length (heap w)) in
  let opt := option_value (heap w) options in
  exists w',
    new_ProxyClient host options w = (Normal this, w') /\
    (ToBoolean (opt "rootUrl") = true ->
     Get_in (heap w') this "rootUrl" = Normal (opt "rootUrl")) /\
    (ToBoolean (opt "timeout") = true ->
     Get_in (heap w') this "timeout" = Normal (opt "timeout")) /\
    (ToBoolean (opt "logger") = true ->
     Get_in (heap w') this "logger" = Normal (opt "logger")).
Proof.
  intros Hal this opt. eexists. split; [apply new_ProxyClient_run; assumption|].
  cbn [heap set_heap]. unfold this. rewrite !Get_in_new. fold opt.
  destruct (client_object_get
    (or_default (opt "rootUrl") (VString "http://localhost"))
    (or_default (opt "logger") (VNative (createMill host "ProxyClient")))
    (or_default (opt "timeout") (VNumber 5000)) VNull)
    as (-> & -> & -> & _).
  repeat split; intros Hf; now rewrite or_default_keep.
Qed.

Lemma truthy_options_are_kept_witness :
  exists w',
    new_ProxyClient node (VObject 0) full_options_world = (Normal (VObject 1), w') /\
    Get_in (heap w') (VObject 1) "rootUrl" = Normal (VString "https://api.example/v1") /\
    Get_in (heap w') (VObject 1) "timeout" = Normal (VNumber 250) /\
    Get_in (heap w') (VObject 1) "logger" = Normal (VNative 9).
Proof.
  destruct (truthy_options_are_kept node (VObject 0) full_options_world)
    as (w' & Hrun & Hr & Ht & Hl).
  - simpl. lia.
  - exists w'. split; [exact Hrun|].
    split; [apply Hr; reflexivity|].
    split; [apply Ht; reflexivity|apply Hl; reflexivity].
Defined.

Lemma client_object_dom r lg t a :
  dom (obj_props (client_object r lg t a)) = client_keys.
Proof.
  unfold client_object, client_keys. cbn [obj_props].
  rewrite !dom_insert_L, dom_empty_L. set_solver.
Qed.

(** X2. A new client has four own properties and no other: [rootUrl],
    [logger], [timeout] and [_authorization].  The authorization starts as
    [null] whatever the options carry, and no other option ([agent],
    [headers], ...) is stored. *)
Theorem constructed_client_shape host options w :
  allocated (heap w) options ->
  let this := VObject (length (heap w)) in
  exists w' o,
    new_ProxyClient host options w = (Normal this, w') /\
    heap w' !! length (heap w) = Some o /\
    obj_proto o = ProxyClientPrototype /\
    dom (obj_props o) = client_keys /\
    Get_in (heap w') this "_authorization" = Normal VNull /\
    (forall k, k ∉ client_keys -> Get_in (heap w') this k = Normal VUndefined).
Proof.
  intros Hal this. eexists _, _.
  split; [apply new_ProxyClient_run; assumption|]. cbn [heap set_heap].
  split; [apply list_lookup_middle; reflexivity|].
  split; [reflexivity|].
  split; [apply client_object_dom|].
  unfold this. split; [now rewrite Get_in_new|].
  intros k Hk. rewrite Get_in_new. f_equal.
  unfold object_get.
  match goal with |- context [obj_props ?c !! k] =>
    destruct (obj_props c !! k) as [v|] eqn:Hv; [|reflexivity];
    exfalso; apply Hk; rewrite <- (client_object_dom
      (or_default (option_value (heap w) options "rootUrl") (VString "http://localhost"))
      (or_default (option_value (heap w) options "logger") (VNative (createMill host "ProxyClient")))
      (or_default (option_value (heap w) options "timeout") (VNumber 5000)) VNull);
    apply elem_of_dom; eauto
  end.
Qed.

Lemma constructed_client_shape_witness :
  exists w',
    new_ProxyClient node (VObject 0) full_options_world = (Normal (VObject 1), w') /\
    Get_in (heap w') (VObject 1) "_authorization" = Normal VNull /\
    Get_in (heap w') (VObject 1) "agent" = Normal VUndefined /\
    Get_in (heap w') (VObject 1) "headers" = Normal VUndefined /\
    Get_in (heap w') (VObject 1) "auth" = Normal VUndefined.
Proof.
  destruct (constructed_client_shape node (VObject 0) full_options_world)
    as (w' & o & Hrun & _ & _ & _ & Ha & Hk).
  - simpl. lia.
  - exists w'. split; [exact Hrun|]. split; [exact Ha|].
    repeat split; apply Hk; vm_compute; intros H; discriminate H.
Defined.

(** X3. Constructing a client touches nothing that was there: every
    object already in the heap (the options object among them) is as
    before, nothing is logged or sent, and the only new objects are the
    client and, when the options argument is missing, one [{}]. *)
Theorem constructor_leaves_the_rest host options w :
  allocated (heap w) options ->
  exists this w',
    new_ProxyClient host options w = (Normal this, w') /\
    (forall l, (l < length (heap w))%nat -> heap w' !! l = heap w !! l) /\
    trace w' = trace w /\ responses w' = responses w /\ clock w' = clock w /\
    length (heap w')
    = (length (heap w) + (if ToBoolean options then 1 else 2))%nat.
Proof.
  intros Hal. eexists _, _.
  split; [apply new_ProxyClient_run; assumption|].
  cbn [heap set_heap trace responses clock].
  split; [intros l Hl; now rewrite lookup_app_l|].
  repeat (split; [reflexivity|]).
  rewrite length_app. cbn [length]. destruct (ToBoolean options); reflexivity.
Qed.

Lemma constructor_leaves_the_rest_witness :
  exists this w',
    new_ProxyClient node VUndefined full_options_world = (Normal this, w') /\
    heap w' !! 0%nat = heap full_options_world !! 0%nat /\
    trace w' = [] /\
    length (heap w') = 3%nat.
Proof.
  destruct (constructor_leaves_the_rest node VUndefined full_options_world)
    as (this & w' & Hrun & Hframe & Htr & _ & _ & Hlen).
  - exact I.
  - exists this, w'. split; [exact Hrun|].
    split; [apply Hframe; simpl; lia|].
    split; [exact Htr|exact Hlen].
Defined.

(** X4. [createClient] given a client as its options makes a second
    client with the same [rootUrl], [logger] and [timeout]; the
    authorization is not carried over, it is [null] again. *)
Theorem createClient_copies_configuration host w this :
  is_client (heap w) this ->
  exists copy w',
    createClient host this w = (Normal copy, w') /\
    copy <> this /\
    is_client (heap w') copy /\
    Get_in (heap w') copy "rootUrl" = Get_in (heap w) this "rootUrl" /\
    Get_in (heap w') copy "logger" = Get_in (heap w) this "logger" /\
    Get_in (heap w') copy "timeout" = Get_in (heap w) this "timeout" /\
    Get_in (heap w') copy "_authorization" = Normal VNull.
Proof.
  intros Hc. pose proof (is_client_allocated _ _ Hc) as Hal.
  destruct Hc as (l & o & -> & Hl & Hp & Hr & Hlg & Ht).
  unfold createClient, ProxyClient.
  eexists _, _. split; [apply new_ProxyClient_run; assumption|].
  cbn [heap set_heap]. unfold option_value. cbn [ToBoolean Get_in]. rewrite Hl.
  rewrite !or_default_keep by assumption.
  split.
  { intros [= E]. apply lookup_lt_Some in Hl. lia. }
  split.
  { eexists _, _. split; [reflexivity|].
    split; [apply list_lookup_middle; reflexivity|].
    repeat split; assumption. }
  rewrite !list_lookup_middle by reflexivity. repeat split.
Qed.

Lemma createClient_copies_configuration_witness :
  let w := snd (getChild node (VObject 2) (VObject 1)
             (snd (new_ProxyClient node (VObject 0)
                (set_heap [plain_object [("rootUrl", VString "https://api.example/v1")];
                           plain_object [("auth", VString "tok")]] empty_world)))) in
  Get_in (heap w) (VObject 3) "_authorization" = Normal (VString "tok") /\
  exists copy w',
    createClient node (VObject 3) w = (Normal copy, w') /\
    Get_in (heap w') copy "rootUrl" = Normal (VString "https://api.example/v1") /\
    Get_in (heap w') copy "_authorization" = Normal VNull.
Proof.
  intros w. split; [reflexivity|].
  destruct (createClient_copies_configuration node w (VObject 3))
    as (copy & w' & Hrun & _ & _ & Hr & _ & _ & Ha).
  - eexists _, _. split; [reflexivity|].
    split; [vm_compute; reflexivity|].
    repeat split; reflexivity.
  - exists copy, w'. split; [exact Hrun|].
    split; [rewrite Hr; reflexivity|exact Ha].
Defined.

(** ** Child clients, continued *)

(** X5. [getChild] without an options object ([undefined] or [null])
    throws a [TypeError] when it reads [options.auth]; by then the child has
    been constructed, so the heap has grown by one client, but every object
    that existed, the parent included, is as before. *)
Theorem getChild_without_options_throws host w this options :
  is_client (heap w) this ->
  options = VUndefined \/ options = VNull ->
  exists what w',
    getChild host this options w = (Throw (TypeError what), w') /\
    length (heap w') = S (length (heap w)) /\
    is_client (heap w') (VObject (length (heap w))) /\
    (forall l, (l < length (heap w))%nat -> heap w' !! l = heap w !! l) /\
    trace w' = trace w.
Proof.
  intros Hc Hopt. pose proof (is_client_allocated _ _ Hc) as Hal.
  destruct Hc as (l & o & -> & Hl & Hp & Hr & Hlg & Ht).
  unfold getChild, constructor_createClient.
  rewrite !bind_bind, bind_constructor_name, Hl.
  cbn [fmap option_fmap option_map]. rewrite Hp.
  change (strict_equals (VString "ProxyClient") (VString "ProxyClient")) with true.
  cbv iota. rewrite bind_ret.
  unfold createClient, ProxyClient. unfold bind at 1.
  rewrite new_ProxyClient_run by assumption.
  cbn [ToBoolean]. unfold option_value. cbn [ToBoolean Get_in]. rewrite Hl.
  rewrite !or_default_keep by assumption.
  rewrite bind_Get.
  destruct Hopt as [-> | ->]; cbn [Get_in];
    (eexists _, _; split; [reflexivity|]; cbn [heap set_heap trace];
     split; [rewrite length_app; cbn [length]; lia|];
     split; [eexists _, _; split; [reflexivity|];
             split; [apply list_lookup_middle; reflexivity|];
             repeat split; assumption|];
     split; [intros l0 Hl0; now rewrite lookup_app_l|reflexivity]).
Qed.

Lemma getChild_without_options_throws_witness :
  exists what w',
    getChild node (VObject 1) VUndefined proxy_world = (Throw (TypeError what), w') /\
    length (heap w') = 5%nat /\
    heap w' !! 1%nat = heap proxy_world !! 1%nat.
Proof.
  destruct (getChild_without_options_throws node proxy_world (VObject 1) VUndefined)
    as (what & w' & Hrun & Hlen & _ & Hframe & _).
  - eexists _, _. split; [reflexivity|].
    split; [vm_compute; reflexivity|].
    repeat split; reflexivity.
  - left. reflexivity.
  - exists what, w'. split; [exact Hrun|]. split; [exact Hlen|].
    apply Hframe. simpl. lia.
Defined.

(** X6. [getChild] called on anything that is not an instance of
    [ProxyClient] (a plain object, an error, a primitive) finds no
    [createClient] to call: it throws a [TypeError] and changes nothing. *)
Theorem getChild_needs_a_client host w this options :
  (forall l o, this = VObject l -> heap w !! l = Some o ->
               obj_proto o <> ProxyClientPrototype) ->
  exists what, getChild host this options w = (Throw (TypeError what), w).
Proof.
  intros Hnot. unfold getChild, constructor_createClient.
  rewrite !bind_bind, bind_constructor_name.
  destruct this as [| | | | |l|]; try (eexists; reflexivity).
  destruct (heap w !! l) as [o|] eqn:Hl; [|eexists; reflexivity].
  specialize (Hnot l o eq_refl Hl).
  cbn [fmap option_fmap option_map].
  destruct (obj_proto o); try (eexists; reflexivity). congruence.
Qed.

Lemma getChild_needs_a_client_witness :
  exists what,
    getChild node (VObject 0) (VObject 2) proxy_world
    = (Throw (TypeError what), proxy_world).
Proof.
  apply (getChild_needs_a_client node proxy_world (VObject 0) (VObject 2)).
  intros l o [= <-] Hl. vm_compute in Hl. injection Hl as <-. discriminate.
Defined.

(** X7. Children of children.  A child derived from a child has the
    configuration of the first parent and the authorization of the second
    options record; the first child keeps the authorization it was given,
    and the parent keeps its own. *)
Theorem getChild_twice host w this la lb :
  is_client (heap w) this ->
  (la < length (heap w))%nat ->
  (lb < length (heap w))%nat ->
  exists child w1 grandchild w2,
    getChild host this (VObject la) w = (Normal child, w1) /\
    getChild host child (VObject lb) w1 = (Normal grandchild, w2) /\
    grandchild <> child /\ grandchild <> this /\
    Get_in (heap w2) grandchild "rootUrl" = Get_in (heap w) this "rootUrl" /\
    Get_in (heap w2) grandchild "logger" = Get_in (heap w) this "logger" /\
    Get_in (heap w2) grandchild "timeout" = Get_in (heap w) this "timeout" /\
    Get_in (heap w2) grandchild "_authorization"
    = Get_in (heap w) (VObject lb) "auth" /\
    Get_in (heap w2) child "_authorization"
    = Get_in (heap w) (VObject la) "auth" /\
    Get_in (heap w2) this "_authorization"
    = Get_in (heap w) this "_authorization".
Proof.
  intros Hc Hla Hlb.
  destruct Hc as (l & o & -> & Hl & Hp & Hr & Hlg & Ht).
  pose proof (lookup_lt_Some _ _ _ Hl) as Hlt.
  pose proof (getChild_run host w l o la Hl Hp Hr Hlg Ht Hla) as Hrun1.
  set (auth_a := match heap w !! la with
                 | Some oo => object_get oo "auth"
                 | None => VUndefined
                 end) in *.
  set (c1 := client_object (object_get o "rootUrl") (object_get o "logger")
               (object_get o "timeout") auth_a) in *.
  set (w1 := set_heap (heap w ++ [c1]) w) in *.
  assert (Hw1 : heap w1 = heap w ++ [c1]) by reflexivity.
  assert (Hl1 : heap w1 !! length (heap w) = Some c1).
  { rewrite Hw1. apply list_lookup_middle. reflexivity. }
  assert (Hlb1 : (lb < length (heap w1))%nat).
  { rewrite Hw1, length_app. cbn [length]. lia. }
  pose proof (getChild_run host w1 (length (heap w)) c1 lb Hl1 eq_refl Hr Hlg Ht Hlb1)
    as Hrun2.
  eexists _, _, _, _. split; [exact Hrun1|]. split; [exact Hrun2|].
  cbn [heap set_heap]. rewrite Hw1, length_app. cbn [length].
  split; [intros [= E]; lia|]. split; [intros [= E]; lia|].
  replace (length (heap w) + 1)%nat with (length (heap w ++ [c1]))
    by (rewrite length_app; cbn [length]; lia).
  rewrite !Get_in_new.
  rewrite (lookup_app_l (heap w) [c1] lb) by exact Hlb.
  cbn [Get_in].
  rewrite (lookup_app_l (heap w ++ [c1])) by (rewrite length_app; cbn [length]; lia).
  rewrite (lookup_app_l (heap w ++ [c1])) by (rewrite length_app; cbn [length]; lia).
  rewrite (list_lookup_middle (heap w) [] c1 (length (heap w)) eq_refl).
  rewrite (lookup_app_l (heap w) [c1] l) by exact Hlt.
  rewrite Hl. repeat split.
Qed.

Lemma getChild_twice_witness :
  let w := set_heap [client_object (VString "https://api.example/v1") (VNative 1)
                       (VNumber 250) (VString "root");
                     plain_object [("auth", VString "first")];
                     plain_object [("auth", VString "second")]] empty_world in
  exists child w1 grandchild w2,
    getChild node (VObject 0) (VObject 1) w = (Normal child, w1) /\
    getChild node child (VObject 2) w1 = (Normal grandchild, w2) /\
    Get_in (heap w2) grandchild "rootUrl" = Normal (VString "https://api.example/v1") /\
    Get_in (heap w2) grandchild "timeout" = Normal (VNumber 250) /\
    Get_in (heap w2) grandchild "_authorization" = Normal (VString "second") /\
    Get_in (heap w2) child "_authorization" = Normal (VString "first") /\
    Get_in (heap w2) (VObject 0) "_authorization" = Normal (VString "root").
Proof.
  intros w.
  destruct (getChild_twice node w (VObject 0) 1%nat 2%nat)
    as (child & w1 & grandchild & w2 & H1 & H2 & _ & _ & Hr & _ & Ht & Ha & Hc & Hp).
  - eexists _, _. split; [reflexivity|].
    split; [vm_compute; reflexivity|].
    repeat split; reflexivity.
  - simpl. lia.
  - simpl. lia.
  - exists child, w1, grandchild, w2.
    split; [exact H1|]. split; [exact H2|].
    split; [rewrite Hr; reflexivity|].
    split; [rewrite Ht; reflexivity|].
    split; [rewrite Ha; reflexivity|].
    split; [rewrite Hc; reflexivity|].
    rewrite Hp. reflexivity.
Defined.

(** ** Resolving a path, continued *)

(** X8. [getUrl] has no effect on the world, whatever it is given; and a
    path that is not a string is refused by [url.parse] with a
    [TypeError]. *)
Theorem getUrl_has_no_effect host this path w :
  snd (getUrl host this path w) = w /\
  ((forall s, path <> VString s) ->
   exists what, fst (getUrl host this path w) = Throw (TypeError what)).
Proof.
  destruct path as [| | | |s| |];
    try (split; [reflexivity|intros _; eexists; reflexivity]).
  rewrite getUrl_run. split.
  - destruct (ToBoolean (u_hostname (url_parse host s))); [reflexivity|].
    destruct (Get_in (heap w) this "rootUrl"); reflexivity.
  - intros Hs. exfalso. now apply (Hs s).
Qed.

Lemma getUrl_has_no_effect_witness :
  snd (getUrl node (VObject 1) (VString "/search?q=x") proxy_world) = proxy_world /\
  exists what,
    fst (getUrl node (VObject 1) (VNumber 7) proxy_world) = Throw (TypeError what).
Proof.
  split.
  - apply (proj1 (getUrl_has_no_effect node (VObject 1) (VString "/search?q=x")
                    proxy_world)).
  - apply (proj2 (getUrl_has_no_effect node (VObject 1) (VNumber 7) proxy_world)).
    intros s. discriminate.
Defined.

(** ** Building a request, continued *)



(** X10. [request] with a path that is not a string throws the
    [TypeError] of [url.parse] at once: no request is built and nothing
    changes. *)
Theorem request_refuses_non_string_path host w this method path :
  (forall s, path <> VString s) ->
  exists what,
    request host this method path w = (Throw (TypeError what), w).
Proof.
  intros Hs. unfold request. rewrite bind_Date_now.
  destruct path as [| | | |s| |]; try (eexists; reflexivity).
  exfalso. now apply (Hs s).
Qed.

Lemma request_refuses_non_string_path_witness :
  exists what,
    request node (VObject 1) (VString "GET") VUndefined proxy_world
    = (Throw (TypeError what), proxy_world).
Proof.
  apply (request_refuses_non_string_path node proxy_world (VObject 1)
           (VString "GET") VUndefined).
  intros s. discriminate.
Defined.



(** ** Log records, continued *)

Lemma _formatRequest_object w lq rq :
  heap w !! lq = Some rq ->
  allocated (heap w) (object_get rq "req") ->
  let own := or_default (object_get rq "headers")
               (or_default (object_get rq "header") (VObject (length (heap w)))) in
  let headers := if ToBoolean (object_get rq "req")
                 then option_value (heap w) (object_get rq "req") "_headers"
                 else own in
  let w' := if ToBoolean (object_get rq "headers") then w
            else if ToBoolean (object_get rq "header") then w
            else set_heap (heap w ++ [empty_object]) w in
  _formatRequest (VObject lq) w
  = (Normal [("method", object_get rq "method"); ("url", object_get rq "url");
             ("headers", headers)], w').
Proof.
  intros Hl Hal own headers w'. subst own headers w'.
  pose proof (lookup_lt_Some _ _ _ Hl) as Hlt.
  assert (Hq : forall t k, Get_in (heap w ++ t) (VObject lq) k
                           = Normal (object_get rq k)).
  { intros t k. rewrite Get_in_old by exact Hlt. cbn [Get_in]. now rewrite Hl. }
  assert (Hq0 : forall k, Get_in (heap w) (VObject lq) k = Normal (object_get rq k)).
  { intros k. cbn [Get_in]. now rewrite Hl. }
  assert (Hreq : forall t, ToBoolean (object_get rq "req") = true ->
            Get_in (heap w ++ t) (object_get rq "req") "_headers"
            = Normal (option_value (heap w) (object_get rq "req") "_headers")).
  { intros t Hb. rewrite Get_in_old by exact Hal. now apply Get_in_option_value. }
  assert (Hreq0 : ToBoolean (object_get rq "req") = true ->
            Get_in (heap w) (object_get rq "req") "_headers"
            = Normal (option_value (heap w) (object_get rq "req") "_headers")).
  { intros Hb. now apply Get_in_option_value. }
  unfold _formatRequest, or_default.
  destruct w as [h rs tr ck]. cbn [heap set_heap responses trace clock] in *.
  rewrite bind_or_else, bind_Get. cbn [heap]. rewrite Hq0.
  destruct (ToBoolean (object_get rq "headers")) eqn:Hh.
  - rewrite bind_Get. cbn [heap]. rewrite Hq0.
    destruct (ToBoolean (object_get rq "req")) eqn:Hr.
    + rewrite !bind_bind, bind_Get. cbn [heap]. rewrite Hq0.
      rewrite bind_Get. cbn [heap]. rewrite (Hreq0 eq_refl).
      rewrite bind_Get. cbn [heap]. rewrite Hq0.
      rewrite bind_Get. cbn [heap]. rewrite Hq0. reflexivity.
    + rewrite bind_ret, bind_Get. cbn [heap]. rewrite Hq0.
      rewrite bind_Get. cbn [heap]. rewrite Hq0. reflexivity.
  - rewrite bind_or_else, bind_Get. cbn [heap]. rewrite Hq0.
    destruct (ToBoolean (object_get rq "header")) eqn:Hh'.
    + rewrite bind_Get. cbn [heap]. rewrite Hq0.
      destruct (ToBoolean (object_get rq "req")) eqn:Hr.
      * rewrite !bind_bind, bind_Get. cbn [heap]. rewrite Hq0.
        rewrite bind_Get. cbn [heap]. rewrite (Hreq0 eq_refl).
        rewrite bind_Get. cbn [heap]. rewrite Hq0.
        rewrite bind_Get. cbn [heap]. rewrite Hq0. reflexivity.
      * rewrite bind_ret, bind_Get. cbn [heap]. rewrite Hq0.
        rewrite bind_Get. cbn [heap]. rewrite Hq0. reflexivity.
    + rewrite bind_alloc. unfold set_heap. cbn [heap responses trace clock].
      rewrite bind_Get. cbn [heap]. rewrite Hq.
      destruct (ToBoolean (object_get rq "req")) eqn:Hr.
      * rewrite !bind_bind, bind_Get. cbn [heap]. rewrite Hq.
        rewrite bind_Get. cbn [heap]. rewrite (Hreq _ eq_refl).
        rewrite bind_Get. cbn [heap]. rewrite Hq.
        rewrite bind_Get. cbn [heap]. rewrite Hq. reflexivity.
      * rewrite bind_ret, bind_Get. cbn [heap]. rewrite Hq.
        rewrite bind_Get. cbn [heap]. rewrite Hq. reflexivity.
Qed.

(** X12. The record [_formatRequest] makes of a request object holds
    its [method] and [url], and for [headers]: [request.req._headers]
    whenever [request.req] is set, even when that is [undefined];
    otherwise [request.headers], else [request.header], else a new empty
    object.  The heap grows (by that empty object) only when neither
    [headers] nor [header] is set; no existing object changes. *)
Theorem _formatRequest_headers_precedence w lq rq :
  heap w !! lq = Some rq ->
  allocated (heap w) (object_get rq "req") ->
  exists headers w',
    _formatRequest (VObject lq) w
    = (Normal [("method", object_get rq "method"); ("url", object_get rq "url");
               ("headers", headers)], w') /\
    (ToBoolean (object_get rq "req") = true ->
     headers = option_value (heap w) (object_get rq "req") "_headers") /\
    (ToBoolean (object_get rq "req") = false ->
     (ToBoolean (object_get rq "headers") = true ->
      headers = object_get rq "headers") /\
     (ToBoolean (object_get rq "headers") = false ->
      ToBoolean (object_get rq "header") = true ->
      headers = object_get rq "header") /\
     (ToBoolean (object_get rq "headers") = false ->
      ToBoolean (object_get rq "header") = false ->
      headers = VObject (length (heap w)))) /\
    (ToBoolean (object_get rq "headers") = true \/
     ToBoolean (object_get rq "header") = true -> w' = w) /\
    (ToBoolean (object_get rq "headers") = false ->
     ToBoolean (object_get rq "header") = false ->
     w' = set_heap (heap w ++ [empty_object]) w).
Proof.
  intros Hl Hal. eexists _, _.
  split; [apply _formatRequest_object; assumption|].
  unfold or_default.
  split; [intros ->; reflexivity|].
  split.
  { intros ->. split; [intros ->; reflexivity|].
    split; intros -> ->; reflexivity. }
  split.
  - intros [->| Hh]; [reflexivity|].
    destruct (ToBoolean (object_get rq "headers")); [reflexivity|].
    now rewrite Hh.
  - intros -> ->. reflexivity.
Qed.

Lemma _formatRequest_headers_precedence_witness :
  _formatRequest (VObject 3) formatter_world
  = (Normal [("method", VString "GET");
             ("url", VString "https://api.example/v1/search");
             ("headers", VObject 1)], formatter_world) /\
  _formatRequest (VObject 5) formatter_world
  = (Normal [("method", VString "GET"); ("url", VString "/x");
             ("headers", VUndefined)], formatter_world) /\
  _formatRequest (VObject 6) formatter_world
  = (Normal [("method", VString "POST"); ("url", VString "/y");
             ("headers", VObject 9)],
     set_heap (heap formatter_world ++ [empty_object]) formatter_world).
Proof.
  split; [|split].
  - destruct (_formatRequest_headers_precedence formatter_world 3%nat
                (plain_object [("method", VString "GET");
                               ("url", VString "https://api.example/v1/search");
                               ("header", VObject 0); ("req", VObject 2)]))
      as (headers & w' & Hrun & Hreq & _ & Hsame & _).
    + reflexivity.
    + vm_compute. lia.
    + rewrite Hrun, (Hreq eq_refl), Hsame by (right; reflexivity). reflexivity.
  - destruct (_formatRequest_headers_precedence formatter_world 5%nat
                (plain_object [("method", VString "GET"); ("url", VString "/x");
                               ("headers", VObject 0); ("req", VObject 4)]))
      as (headers & w' & Hrun & Hreq & _ & Hsame & _).
    + reflexivity.
    + vm_compute. lia.
    + rewrite Hrun, (Hreq eq_refl), Hsame by (left; reflexivity). reflexivity.
  - destruct (_formatRequest_headers_precedence formatter_world 6%nat
                (plain_object [("method", VString "POST"); ("url", VString "/y")]))
      as (headers & w' & Hrun & _ & Hown & _ & Hnew).
    + reflexivity.
    + exact I.
    + destruct (Hown eq_refl) as (_ & _ & Hfresh).
      rewrite Hrun, (Hfresh eq_refl eq_refl), (Hnew eq_refl eq_refl). reflexivity.
Defined.

(** ** The listeners of a request *)




(** ** The proxy middleware, continued *)

(** X15. The middleware writes the three forced headers into the
    headers object of the inbound request itself, and it has done so even
    when the request is then refused for its scheme.  Every other header of
    that object (a lower-case [host] among them) and every other object
    that existed are as before. *)
Theorem subapp_rewrites_inbound_headers host w self lq rq u lh hdrs data res :
  is_client (heap w) self ->
  heap w !! lq = Some rq ->
  object_get rq "url" = VString u ->
  object_get rq "headers" = VObject lh ->
  heap w !! lh = Some hdrs ->
  exists href headers,
    getUrl host self (VString u) w = (Normal (VString href), w) /\
    let w' := snd (subapp_middleware host self
                     {| im_this := VObject lq; im_data := data |} res w) in
    heap w' !! lh = Some headers /\
    obj_proto headers = obj_proto hdrs /\
    object_get headers "Connection" = VString "Keep-Alive" /\
    object_get headers "Host" = u_host (url_parse host href) /\
    object_get headers "Origin" = u_host (url_parse host href) /\
    (forall k, k <> "Connection" -> k <> "Host" -> k <> "Origin" ->
               object_get headers k = object_get hdrs k) /\
    (forall l, (l < length (heap w))%nat -> l <> lh -> heap w' !! l = heap w !! l).
Proof.
  intros Hc Hq Hu Hh Hlh.
  destruct (getUrl_returns_string host w self u Hc) as [href Hg].
  destruct (subapp_middleware_run host w self lq rq u lh hdrs data res href
              Hc Hq Hu Hh Hlh Hg) as (logger & record & _ & Hrun).
  cbv zeta in Hrun.
  pose proof (lookup_lt_Some _ _ _ Hlh) as Hlt.
  set (target := url_parse host href) in *.
  set (h' := force_headers target lh (heap w)
             ++ [proxy_options target (object_get rq "method") lh]) in *.
  assert (Hhd : forall t, (h' ++ t) !! lh
                = Some (object_put "Connection" (VString "Keep-Alive")
                          (object_put "Host" (u_host target)
                             (object_put "Origin" (u_host target) hdrs)))).
  { intros t. unfold h'. rewrite <- app_assoc, lookup_app_l.
    - now apply force_headers_lookup.
    - now rewrite length_force_headers. }
  assert (Hother : forall t l, (l < length (heap w))%nat -> l <> lh ->
                               (h' ++ t) !! l = heap w !! l).
  { intros t l Hl Hne. unfold h'. rewrite <- app_assoc, lookup_app_l.
    - unfold force_headers. now rewrite !list_lookup_alter_ne by congruence.
    - now rewrite length_force_headers. }
  exists href. eexists. split; [exact Hg|]. cbv zeta.
  assert (Hheap : exists t,
    heap (snd (subapp_middleware host self
                 {| im_this := VObject lq; im_data := data |} res w)) = h' ++ t).
  { rewrite Hrun.
    destruct (strict_equals (u_protocol target) (VString "http:"));
      [|destruct (strict_equals (u_protocol target) (VString "https:"))];
      cbn [snd heap]; [exists []|exists []|eexists; reflexivity];
      now rewrite app_nil_r. }
  destruct Hheap as [t ->].
  split; [apply Hhd|].
  split; [reflexivity|].
  split; [now rewrite object_get_put_eq|].
  split; [now rewrite object_get_put_ne, object_get_put_eq by discriminate|].
  split; [now rewrite !object_get_put_ne, object_get_put_eq by discriminate|].
  split.
  - intros k H1 H2 H3. now rewrite !object_get_put_ne by congruence.
  - intros l Hl Hne. now apply Hother.
Qed.

Lemma subapp_rewrites_inbound_headers_witness :
  exists headers,
    heap (snd (subapp_middleware node (VObject 1)
                 {| im_this := VObject 3; im_data := [] |} 7%N ftp_world))
      !! 2%nat = Some headers /\
    object_get headers "Host" = VString "files.example" /\
    object_get headers "host" = VString "browser.example".
Proof.
  destruct (subapp_rewrites_inbound_headers node ftp_world (VObject 1) 3%nat
              (plain_object [("method", VString "GET"); ("url", VString "/pub");
                             ("headers", VObject 2)])
              "/pub" 2%nat
              (plain_object [("host", VString "browser.example")]) [] 7%N)
    as (href & headers & Hg & Hlh & _ & _ & Hhost & _ & Hkeep & _).
  - eexists _, _. split; [reflexivity|].
    split; [vm_compute; reflexivity|].
    repeat split; reflexivity.
  - reflexivity.
  - reflexivity.
  - reflexivity.
  - reflexivity.
  - vm_compute in Hg. injection Hg as <-.
    exists headers. split; [exact Hlh|]. split; [exact Hhost|].
    rewrite Hkeep by discriminate. reflexivity.
Defined.

(** X16. A forwarded request leaves exactly two marks, in this order:
    the dispatch on the transport of its scheme ([http.request] for
    [http:], [https.request] for [https:]) and one info line ["< %s %s"]
    with the inbound method and the target address.  The outgoing request
    takes the inbound body chunk for chunk and has one listener, on
    [response]; nothing is written to the browser yet. *)
Theorem subapp_dispatches_then_logs host w self lq rq u lh hdrs data res href :
  is_client (heap w) self ->
  heap w !! lq = Some rq ->
  object_get rq "url" = VString u ->
  object_get rq "headers" = VObject lh ->
  heap w !! lh = Some hdrs ->
  getUrl host self (VString u) w = (Normal (VString href), w) ->
  u_protocol (url_parse host href) = VString "http:" \/
  u_protocol (url_parse host href) = VString "https:" ->
  exists outgoing w' logger record,
    subapp_middleware host self {| im_this := VObject lq; im_data := data |} res w
    = (Normal outgoing, w') /\
    Get_in (heap w) self "logger" = Normal logger /\
    cr_transport outgoing
    = (if strict_equals (u_protocol (url_parse host href)) (VString "http:")
       then PlainHttp else Tls) /\
    cr_body outgoing = data /\
    (fst <$> cr_listeners outgoing) = ["response"] /\
    trace w'
    = trace w ++
      [(if strict_equals (u_protocol (url_parse host href)) (VString "http:")
        then HttpRequest else HttpsRequest) (cr_options outgoing);
       LoggerInfo logger record "< %s %s" [object_get rq "method"; VString href]] /\
    responses w' = responses w /\
    clock w' = clock w.
Proof.
  intros Hc Hq Hu Hh Hlh Hg Hproto.
  destruct (subapp_middleware_run host w self lq rq u lh hdrs data res href
              Hc Hq Hu Hh Hlh Hg) as (logger & record & Hlog & Hrun).
  cbv zeta in Hrun.
  destruct Hproto as [Hp|Hp]; rewrite Hp in Hrun |- *; cbn in Hrun;
    (eexists _, _, logger, record; split; [exact Hrun|];
     split; [exact Hlog|]; repeat split).
Qed.

Lemma subapp_dispatches_then_logs_witness :
  exists outgoing w' logger record,
    subapp_middleware node (VObject 1)
      {| im_this := VObject 3; im_data := ["a"; "b"] |} 7%N proxy_world
    = (Normal outgoing, w') /\
    cr_transport outgoing = Tls /\
    cr_body outgoing = ["a"; "b"] /\
    trace w'
    = [HttpsRequest (cr_options outgoing);
       LoggerInfo logger record "< %s %s"
         [VString "GET"; VString "https://api.example/v1/search?q=x"]].
Proof.
  destruct (subapp_dispatches_then_logs node proxy_world (VObject 1) 3%nat
              (plain_object [("method", VString "GET"); ("url", VString "/search?q=x");
                             ("headers", VObject 2)])
              "/search?q=x" 2%nat
              (plain_object [("host", VString "browser.example");
                             ("accept", VString "*/*")])
              ["a"; "b"] 7%N "https://api.example/v1/search?q=x")
    as (outgoing & w' & logger & record & Hrun & _ & Ht & Hb & _ & Htr & _).
  - eexists _, _. split; [reflexivity|].
    split; [vm_compute; reflexivity|].
    repeat split; reflexivity.
  - reflexivity.
  - reflexivity.
  - reflexivity.
  - reflexivity.
  - reflexivity.
  - right. reflexivity.
  - exists outgoing, w', logger, record.
    split; [exact Hrun|]. split; [exact Ht|]. split; [exact Hb|exact Htr].
Defined.

(** ** Relaying the upstream response, continued *)

Lemma _formatResponse_object w l o :
  heap w !! l = Some o ->
  _formatResponse (VObject l) w
  = (Normal [("status", object_get o "status");
             ("headers", object_get o "headers")], w).
Proof.
  intros Hl. unfold _formatResponse.
  rewrite bind_Get. cbn [Get_in]. rewrite Hl.
  rewrite bind_Get. cbn [Get_in]. rewrite Hl. reflexivity.
Qed.

(** X17. When the upstream answers, the middleware's listener writes
    exactly one info line, ["> %s %s %s %s ms"], to the client's logger.
    Its arguments are the inbound method, the target address, the upstream
    [statusCode] and the time since the inbound request arrived; but the
    record that goes with it takes its status from the [status] property of
    the upstream message, which is [undefined] on a message that only has
    [statusCode]. *)
Theorem subapp_logs_the_response w self req res start href li inc lhd hdrs data :
  is_client (heap w) self ->
  (exists lq, im_this req = VObject lq) ->
  heap w !! li = Some inc ->
  object_get inc "headers" = VObject lhd ->
  heap w !! lhd = Some hdrs ->
  exists logger method w',
    subapp_on_response self req res start href
      {| im_this := VObject li; im_data := data |} w = (Normal tt, w') /\
    Get_in (heap w) self "logger" = Normal logger /\
    Get_in (heap w) (im_this req) "method" = Normal method /\
    trace w'
    = trace w ++
      [LoggerInfo logger
         [("status", object_get inc "status"); ("headers", VObject lhd)]
         "> %s %s %s %s ms"
         [method; href; object_get inc "statusCode"; toFixed3 (clock w - start)]] /\
    (object_get inc "status" = VUndefined ->
     exists rest, trace w'
       = trace w ++ [LoggerInfo logger (("status", VUndefined) :: rest)
                       "> %s %s %s %s ms"
                       [method; href; object_get inc "statusCode";
                        toFixed3 (clock w - start)]]).
Proof.
  intros Hc [lq Hreq] Hli Hh Hlhd.
  destruct (is_client_logger _ _ Hc) as (logger & Hlog & Hlt).
  assert (Hinc : forall k, Get_in (heap w) (VObject li) k = Normal (object_get inc k)).
  { intros k. cbn [Get_in]. now rewrite Hli. }
  assert (Hm : exists method, Get_in (heap w) (im_this req) "method" = Normal method).
  { rewrite Hreq. cbn [Get_in]. eauto. }
  destruct Hm as [method Hm].
  assert (Hrun : subapp_on_response self req res start href
             {| im_this := VObject li; im_data := data |} w
           = (Normal tt,
              {| heap := heap w;
                 responses :=
                   alter (fun r => {| sr_statusCode := sr_statusCode r;
                                      sr_headers := sr_headers r;
                                      sr_body := sr_body r ++ data;
                                      sr_ended := true |}) res
                     (alter (fun r => {| sr_statusCode := sr_statusCode r;
                                         sr_headers := obj_props hdrs ∪ sr_headers r;
                                         sr_body := sr_body r;
                                         sr_ended := sr_ended r |}) res
                        (alter (fun r => {| sr_statusCode := object_get inc "statusCode";
                                            sr_headers := sr_headers r;
                                            sr_body := sr_body r;
                                            sr_ended := sr_ended r |}) res
                           (responses w)));
                 trace := trace w ++
                   [LoggerInfo logger
                      [("status", object_get inc "status");
                       ("headers", object_get inc "headers")]
                      "> %s %s %s %s ms"
                      [method; href; object_get inc "statusCode";
                       toFixed3 (clock w - start)]];
                 clock := clock w |})).
  { unfold subapp_on_response. cbn [im_this].
    rewrite bind_Date_now, bind_Get, Hlog.
    unfold logger_method. rewrite bind_bind, bind_Get.
    destruct (Get_in_truthy (heap w) logger "info" Hlt) as [x ->].
    rewrite bind_ret. unfold bind at 1.
    rewrite (_formatResponse_object w li inc Hli).
    rewrite bind_Get, Hm.
    rewrite bind_Get, Hinc, bind_emit. cbn [heap].
    rewrite bind_Get. cbn [heap]. rewrite Hinc.
    unfold res_status. rewrite bind_update_response.
    rewrite bind_Get. cbn [heap set_responses]. rewrite Hinc, Hh.
    unfold bind at 1. unfold res_set, set_responses.
    cbn [heap responses trace clock]. rewrite Hlhd.
    unfold update_response at 1. cbn [heap set_responses responses trace clock].
    unfold pipe_to_response, update_response, set_responses.
    cbn [heap set_responses responses trace clock im_data].
    reflexivity. }
  exists logger, method. eexists. split; [exact Hrun|].
  split; [exact Hlog|]. split; [exact Hm|]. cbn [trace]. rewrite Hh.
  split; [reflexivity|].
  intros ->. eexists. reflexivity.
Qed.

Lemma subapp_logs_the_response_witness :
  exists logger w',
    subapp_on_response (VObject 1) {| im_this := VObject 3; im_data := [] |} 7%N 0
      (VString "https://api.example/v1/search?q=x")
      {| im_this := VObject 5; im_data := ["hello "; "world"] |} relay_world
    = (Normal tt, w') /\
    trace w'
    = [LoggerInfo logger [("status", VUndefined); ("headers", VObject 4)]
         "> %s %s %s %s ms"
         [VString "GET"; VString "https://api.example/v1/search?q=x";
          VNumber 404; VString "12.000"]].
Proof.
  destruct (subapp_logs_the_response relay_world (VObject 1)
              {| im_this := VObject 3; im_data := [] |} 7%N 0
              (VString "https://api.example/v1/search?q=x") 5%nat
              (plain_object [("statusCode", VNumber 404); ("headers", VObject 4)])
              4%nat
              (plain_object [("content-type", VString "text/plain");
                             ("x-request-id", VString "r-17")])
              ["hello "; "world"])
    as (logger & method & w' & Hrun & _ & Hm & Htr & _).
  - eexists _, _. split; [reflexivity|].
    split; [vm_compute; reflexivity|].
    repeat split; reflexivity.
  - exists 3%nat. reflexivity.
  - reflexivity.
  - reflexivity.
  - reflexivity.
  - exists logger, w'. split; [exact Hrun|].
    vm_compute in Hm. injection Hm as <-. rewrite Htr. reflexivity.
Defined.



(** ** Classifying a response, continued *)

(** X19. [rejectResponse] on a response object ends in one of two
    ways and no other: it returns a rejected promise exactly when the body
    names the error or the status code has a phrase; otherwise it throws
    the [TypeError] of calling [replace] on [undefined].  It never returns
    a fulfilled promise. *)
Theorem rejectResponse_rejects_or_throws host w this lr resp :
  heap w !! lr = Some resp ->
  allocated (heap w) (object_get resp "body") ->
  let name := option_value (heap w) (object_get resp "body") "name" in
  let status := object_get resp "status" in
  let outcome := fst (rejectResponse host this (VObject lr) w) in
  ((ToBoolean name = true \/
    exists phrase, STATUS_CODES host !! ToString host status = Some phrase) <->
   exists err, outcome = Normal (Rejected err)) /\
  (forall v, outcome <> Normal (Fulfilled v)) /\
  (forall e, outcome = Throw e ->
             e = TypeError "Cannot read property 'replace' of undefined").
Proof.
  intros Hl Hal name status outcome. subst outcome.
  rewrite (rejectResponse_run host w this lr resp Hl Hal). cbv zeta.
  fold name. unfold status_phrase. fold status.
  destruct (ToBoolean name) eqn:Hn.
  - cbn [fst]. split; [split; [eauto|auto]|]. split; [discriminate|discriminate].
  - destruct (STATUS_CODES host !! ToString host status) as [phrase|] eqn:Hs;
      cbn [fst].
    + split; [split; [eauto|eauto]|]. split; [discriminate|discriminate].
    + split; [|split; [discriminate|now intros e [= <-]]].
      split.
      * intros [Hf|[phrase Hp]]; discriminate.
      * intros [err He]. discriminate.
Qed.

Lemma rejectResponse_rejects_or_throws_witness :
  (exists err, fst (rejectResponse node VUndefined (VObject 1) not_found_world)
               = Normal (Rejected err)) /\
  ~ (exists err, fst (rejectResponse node VUndefined (VObject 1) unknown_status_world)
                 = Normal (Rejected err)).
Proof.
  split.
  - apply (proj1 (rejectResponse_rejects_or_throws node not_found_world VUndefined
                    1%nat
                    (plain_object [("status", VNumber 404); ("body", VObject 0);
                                   ("text", VString "Not Found")])
                    eq_refl ltac:(vm_compute; lia))).
    right. exists "Not Found". reflexivity.
  - intros Herr.
    apply (proj1 (rejectResponse_rejects_or_throws node unknown_status_world VUndefined
                    1%nat
                    (plain_object [("status", VNumber 520); ("body", VObject 0);
                                   ("text", VString "origin error")])
                    eq_refl ltac:(vm_compute; lia))) in Herr.
    destruct Herr as [Hn|[phrase Hp]]; [discriminate Hn|].
    vm_compute in Hp. discriminate Hp.
Defined.



(** X21. [rejectResponse] without a response ([undefined] or [null])
    throws a [TypeError] on reading [response.body]; nothing has been
    allocated or changed. *)
Theorem rejectResponse_without_response_throws host w this response :
  response = VUndefined \/ response = VNull ->
  exists what,
    rejectResponse host this response w = (Throw (TypeError what), w).
Proof.
  intros [-> | ->]; unfold rejectResponse;
    rewrite bind_or_else, bind_Get; cbn [Get_in]; eexists; reflexivity.
Qed.

Lemma rejectResponse_without_response_throws_witness :
  exists what,
    rejectResponse node VUndefined VUndefined not_found_world
    = (Throw (TypeError what), not_found_world).
Proof.
  apply (rejectResponse_without_response_throws node not_found_world VUndefined
           VUndefined).
  left. reflexivity.
Defined.

(** White space goes, and nothing else: the characters that remain are
    the others, in their order. *)
Lemma remove_whitespace_filter s :
  list_ascii_of_string (remove_whitespace s)
  = List.filter (fun c => negb (is_whitespace c)) (list_ascii_of_string s).
Proof.
  induction s as [|c s IH]; [reflexivity|].
  cbn [remove_whitespace list_ascii_of_string List.filter].
  destruct (is_whitespace c); cbn [negb list_ascii_of_string]; now rewrite IH.
Qed.

Lemma list_ascii_of_string_app a b :
  list_ascii_of_string (a ++ b)
  = list_ascii_of_string a ++ list_ascii_of_string b.
Proof.
  induction a as [|c a IH]; [reflexivity|].
  simpl. f_equal. exact IH.
Qed.

(** X22. The name that falls back on the status phrase is the phrase
    with every white-space character taken out, the others kept in order,
    followed by ["Error"]: for any phrase, it has no white space in it. *)
Theorem fallback_name_has_no_whitespace host w this lr resp phrase :
  heap w !! lr = Some resp ->
  allocated (heap w) (object_get resp "body") ->
  ToBoolean (option_value (heap w) (object_get resp "body") "name") = false ->
  STATUS_CODES host !! ToString host (object_get resp "status") = Some phrase ->
  exists err w' name,
    rejectResponse host this (VObject lr) w = (Normal (Rejected err), w') /\
    Get_in (heap w') err "name" = Normal (VString name) /\
    list_ascii_of_string name
    = List.filter (fun c => negb (is_whitespace c)) (list_ascii_of_string phrase)
      ++ list_ascii_of_string "Error" /\
    Forall (fun c => is_whitespace c = false) (list_ascii_of_string name).
Proof.
  intros Hl Hal Hn Hs.
  pose proof (rejectResponse_run host w this lr resp Hl Hal) as Hrun.
  cbv zeta in Hrun. rewrite Hn in Hrun. unfold status_phrase in Hrun.
  rewrite Hs in Hrun.
  eexists _, _, _. split; [exact Hrun|]. cbn [heap set_heap].
  rewrite Get_in_new.
  rewrite object_get_put_ne, object_get_put_eq by discriminate.
  split; [reflexivity|].
  rewrite list_ascii_of_string_app, remove_whitespace_filter.
  split; [reflexivity|].
  apply Forall_app. split.
  - apply Forall_forall. intros c Hc. apply list_elem_of_In in Hc.
    apply List.filter_In in Hc. destruct Hc as [_ Hc].
    now destruct (is_whitespace c).
  - repeat constructor.
Qed.

Lemma fallback_name_has_no_whitespace_witness :
  exists err w',
    rejectResponse node VUndefined (VObject 0) server_error_world
    = (Normal (Rejected err), w') /\
    Get_in (heap w') err "name" = Normal (VString "InternalServerErrorError").
Proof.
  destruct (fallback_name_has_no_whitespace node server_error_world VUndefined 0%nat
              (plain_object [("status", VNumber 500); ("body", VNull);
                             ("text", VString "boom")])
              "Internal Server Error")
    as (err & w' & name & Hrun & Hname & Hchars & _).
  - reflexivity.
  - exact I.
  - reflexivity.
  - reflexivity.
  - exists err, w'. split; [exact Hrun|]. rewrite Hname. do 2 f_equal.
    rewrite <- (string_of_list_ascii_of_string name), Hchars. reflexivity.
Defined.

(** ** What no method does to a client *)

Lemma keeps_client_frame w w' c :
  is_client (heap w) c ->
  (forall l, (l < length (heap w))%nat -> heap w' !! l = heap w !! l) ->
  keeps_client w w' c.
Proof.
  intros (l & o & -> & Hl & Hrest) Hframe.
  pose proof (lookup_lt_Some _ _ _ Hl) as Hlt.
  assert (Hl' : heap w' !! l = Some o) by (now rewrite Hframe).
  split; [exists l, o; auto|].
  cbn [Get_in]. rewrite Hl, Hl'. repeat split.
Qed.

Lemma keeps_client_forced parsed lh w w' t c :
  is_client (heap w) c ->
  heap w' = force_headers parsed lh (heap w) ++ t ->
  keeps_client w w' c.
Proof.
  intros Hc Hw'. pose proof (is_client_allocated _ _ Hc) as Hal.
  destruct Hc as (l & o & -> & Hl & Hp & Hr & Hlg & Ht).
  pose proof (lookup_lt_Some _ _ _ Hl) as Hlt.
  unfold keeps_client. rewrite Hw'.
  rewrite !Get_in_forced by (assumption || discriminate).
  split; [|repeat split].
  destruct (decide (l = lh)) as [->|Hne].
  - eexists lh, _. split; [reflexivity|]. split.
    { rewrite lookup_app_l by (now rewrite length_force_headers).
      apply force_headers_lookup. exact Hl. }
    split; [exact Hp|].
    rewrite !object_get_put_ne by discriminate. auto.
  - exists l, o. split; [reflexivity|]. split; [|auto].
    rewrite lookup_app_l by (now rewrite length_force_headers).
    unfold force_headers. now rewrite !list_lookup_alter_ne by congruence.
Qed.

(** X23. No method rewrites a client.  Whatever [getChild],
    [rejectResponse], the proxy middleware or its response listener do,
    and however they end, every client that existed is still a client
    afterwards, with the [rootUrl], [logger], [timeout] and authorization it
    had: also when the middleware forces its headers onto an object that
    happens to be the client. *)
Theorem no_method_rewrites_a_client host w c :
  is_client (heap w) c ->
  (forall this la,
     is_client (heap w) this -> (la < length (heap w))%nat ->
     keeps_client w (snd (getChild host this (VObject la) w)) c) /\
  (forall this lr resp,
     heap w !! lr = Some resp ->
     allocated (heap w) (object_get resp "body") ->
     keeps_client w (snd (rejectResponse host this (VObject lr) w)) c) /\
  (forall self lq rq u lh hdrs data res,
     is_client (heap w) self ->
     heap w !! lq = Some rq ->
     object_get rq "url" = VString u ->
     object_get rq "headers" = VObject lh ->
     heap w !! lh = Some hdrs ->
     keeps_client w
       (snd (subapp_middleware host self
               {| im_this := VObject lq; im_data := data |} res w)) c) /\
  (forall self req res start href li inc lhd hdrs data,
     is_client (heap w) self ->
     (exists lq, im_this req = VObject lq) ->
     heap w !! li = Some inc ->
     object_get inc "headers" = VObject lhd ->
     heap w !! lhd = Some hdrs ->
     keeps_client w
       (snd (subapp_on_response self req res start href
               {| im_this := VObject li; im_data := data |} w)) c).
Proof.
  intros Hc. split; [|split; [|split]].
  - intros this la (l & o & -> & Hl & Hp & Hr & Hlg & Ht) Hla.
    rewrite (getChild_run host w l o la Hl Hp Hr Hlg Ht Hla). cbn [snd].
    apply keeps_client_frame; [exact Hc|].
    intros l0 Hl0. cbn [heap set_heap]. now rewrite lookup_app_l.
  - intros this lr resp Hl Hal.
    rewrite (rejectResponse_run host w this lr resp Hl Hal). cbv zeta.
    apply keeps_client_frame; [exact Hc|].
    intros l0 Hl0.
    destruct (ToBoolean (option_value (heap w) (object_get resp "body") "name"));
      [|destruct (status_phrase host (object_get resp "status"))];
      cbn [snd heap set_heap]; rewrite <- app_assoc; now rewrite lookup_app_l.
  - intros self lq rq u lh hdrs data res Hs Hq Hu Hh Hlh.
    destruct (getUrl_returns_string host w self u Hs) as [href Hg].
    destruct (subapp_middleware_run host w self lq rq u lh hdrs data res href
                Hs Hq Hu Hh Hlh Hg) as (logger & record & _ & Hrun).
    cbv zeta in Hrun. rewrite Hrun.
    destruct (strict_equals (u_protocol (url_parse host href)) (VString "http:"));
      [|destruct (strict_equals (u_protocol (url_parse host href))
                    (VString "https:"))];
      cbn [snd];
      (eapply keeps_client_forced; [exact Hc|]; cbn [heap];
       rewrite <- ?app_assoc; reflexivity).
  - intros self req res start href li inc lhd hdrs data Hs Hreq Hli Hh Hlhd.
    destruct (subapp_on_response_run w self req res start href li inc lhd hdrs data
                Hs Hreq Hli Hh Hlhd) as (logger & record & Hrun).
    rewrite Hrun. cbn [snd].
    apply keeps_client_frame; [exact Hc|]. intros l0 _. reflexivity.
Qed.

(** The middleware run on a request whose headers object is the client
    itself: the client gets the three headers and keeps its settings. *)
Lemma no_method_rewrites_a_client_witness :
  let w := set_heap [client_object (VString "https://api.example/v1") (VNative 1)
                       (VNumber 5000) (VString "tok");
                     plain_object [("method", VString "GET");
                                   ("url", VString "/search?q=x");
                                   ("headers", VObject 0)]] empty_world in
  let w' := snd (subapp_middleware node (VObject 0)
                   {| im_this := VObject 1; im_data := [] |} 7%N w) in
  Get_in (heap w') (VObject 0) "Host" = Normal (VString "api.example") /\
  Get_in (heap w') (VObject 0) "rootUrl" = Normal (VString "https://api.example/v1") /\
  Get_in (heap w') (VObject 0) "_authorization" = Normal (VString "tok").
Proof.
  intros w w'.
  assert (Hc : is_client (heap w) (VObject 0)).
  { eexists _, _. split; [reflexivity|].
    split; [vm_compute; reflexivity|].
    repeat split; reflexivity. }
  destruct (no_method_rewrites_a_client node w (VObject 0) Hc) as (_ & _ & Hmw & _).
  destruct (Hmw (VObject 0) 1%nat
              (plain_object [("method", VString "GET"); ("url", VString "/search?q=x");
                             ("headers", VObject 0)])
              "/search?q=x" 0%nat
              (client_object (VString "https://api.example/v1") (VNative 1)
                 (VNumber 5000) (VString "tok"))
              [] 7%N Hc eq_refl eq_refl eq_refl eq_refl)
    as (_ & Hr & _ & _ & Ha).
  split; [reflexivity|]. subst w'.
  split; [rewrite Hr; reflexivity|rewrite Ha; reflexivity].
Defined.

(** ** From construction to requests *)

(** X24. A client resolves a relative path against the [rootUrl] it
    was constructed with: the given one when it is set, and
    ["http://localhost"] otherwise. *)
Theorem new_client_resolves_relative_paths host options w p :
  allocated (heap w) options ->
  ToBoolean (u_hostname (url_parse host p)) = false ->
  exists this w',
    new_ProxyClient host options w = (Normal this, w') /\
    getUrl host this (VString p) w'
    = (Normal (VString
         (ToString host (or_default (option_value (heap w) options "rootUrl")
                           (VString "http://localhost")) ++ p)), w').
Proof.
  intros Hal Hrel. eexists _, _.
  split; [apply new_ProxyClient_run; assumption|].
  rewrite getUrl_run, Hrel. cbn [heap set_heap]. rewrite Get_in_new.
  reflexivity.
Qed.

Lemma new_client_resolves_relative_paths_witness :
  (exists this w',
     new_ProxyClient node (VObject 0) full_options_world = (Normal this, w') /\
     getUrl node this (VString "/search") w'
     = (Normal (VString "https://api.example/v1/search"), w')) /\
  (exists this w',
     new_ProxyClient node VUndefined empty_world = (Normal this, w') /\
     getUrl node this (VString "/search") w'
     = (Normal (VString "http://localhost/search"), w')).
Proof.
  split.
  - destruct (new_client_resolves_relative_paths node (VObject 0) full_options_world
                "/search") as (this & w' & Hrun & Hget).
    + simpl. lia.
    + reflexivity.
    + exists this, w'. split; [exact Hrun|exact Hget].
  - destruct (new_client_resolves_relative_paths node VUndefined empty_world
                "/search") as (this & w' & Hrun & Hget).
    + exact I.
    + reflexivity.
    + exists this, w'. split; [exact Hrun|exact Hget].
Defined.


